(** * markov_poem: the word-level Markov chain of [sonnet.py]

    A shallow embedding of [read_file], [generate_chain], [create_database],
    [do_markov] and [db_stats], and the properties of the written
    specification that concern them.

    Conventions of the embedding:
    - the source is Python 2 ([sys.maxint]): a [str] is a byte string, here a
      [string], and [str.split()] separates on the six ASCII whitespace
      bytes;
    - Python [int]s are [Z]; list lengths are [nat] and are injected where
      the source mixes them with [int]s;
    - [read_file] is the loop over the list of lines that [readlines]
      returns; [read_file_at] is the whole function, on a file system that
      maps the names of the files that can be opened to their lines;
    - the database is a [gmap] from key tuples to successor lists; loops over
      it visit the entries in the order of [map_to_list] (a Python 2 [dict]
      fixes no order);
    - an uncaught exception is an [outcome]; the two [while] loops of
      [do_markov] take fuel and answer [Timeout] when it runs out;
    - the [random] module is an oracle [rand : nat -> nat] read through a
      cursor: the i-th call of the run receives [rand i], and the cursor a
      computation leaves counts the calls made;
    - Python [float]s are binary64 numbers, here [PrimFloat.float]; [x ** 2]
      is taken as [x * x]. *)

From Stdlib Require Import ZArith Lia String Ascii Floats.
From stdpp Require Import gmap strings list fin_maps.

Local Open Scope string_scope.
Local Open Scope Z_scope.
Local Open Scope list_scope.

(** ** Exceptions and outcomes *)

Inductive exn : Set :=
| IndexError
| KeyError
| ValueError
| UnboundLocalError
| ZeroDivisionError
| IOError.

Inductive outcome (A : Type) : Type :=
| Ret (a : A)
| Raise (e : exn)
| Timeout.

Arguments Ret {A} a.
Arguments Raise {A} e.
Arguments Timeout {A}.

Definition obind {A B : Type} (m : outcome A) (k : A -> outcome B) : outcome B :=
  match m with
  | Ret a => k a
  | Raise e => Raise e
  | Timeout => Timeout
  end.

#[global] Instance outcome_ret : MRet outcome := @Ret.
#[global] Instance outcome_bind : MBind outcome := fun A B k m => obind m k.

(** A [for] loop whose body may raise. *)
Fixpoint for_each {A S : Type} (body : S -> A -> outcome S) (s : S) (xs : list A)
  : outcome S :=
  match xs with
  | [] => Ret s
  | x :: xs' => s' ← body s x; for_each body s' xs'
  end.

(** ** The Python runtime the source relies on *)

Module Py.

(** [len(l)] as an [int]. *)
Definition len {A : Type} (l : list A) : Z := Z.of_nat (length l).

(** [range(n)]. *)
Definition range (n : Z) : list Z := Z.of_nat <$> seq 0 (Z.to_nat n).

(** A slice bound clipped to the list, negative bounds counting from the
    end. *)
Definition clip (n : Z) (i : Z) : Z :=
  if i <? 0 then Z.max 0 (i + n) else Z.min i n.

(** [l[lo:hi]]. *)
Definition slice {A : Type} (l : list A) (lo hi : Z) : list A :=
  let lo' := clip (len l) lo in
  let hi' := clip (len l) hi in
  take (Z.to_nat (hi' - lo')) (drop (Z.to_nat lo') l).

(** [l[lo:]] and [l[:hi]]. *)
Definition slice_from {A : Type} (l : list A) (lo : Z) : list A :=
  slice l lo (len l).
Definition slice_to {A : Type} (l : list A) (hi : Z) : list A :=
  slice l 0 hi.

(** The position an index denotes, [None] when it is out of range. *)
Definition index {A : Type} (l : list A) (i : Z) : option nat :=
  let j := if i <? 0 then i + len l else i in
  if (0 <=? j) && (j <? len l) then Some (Z.to_nat j) else None.

(** [l[i]]. *)
Definition getitem {A : Type} (l : list A) (i : Z) : outcome A :=
  match index l i with
  | Some j => match l !! j with Some x => Ret x | None => Raise IndexError end
  | None => Raise IndexError
  end.

(** [l[i] = x]. *)
Definition setitem {A : Type} (l : list A) (i : Z) (x : A) : outcome (list A) :=
  match index l i with
  | Some j => Ret (<[j := x]> l)
  | None => Raise IndexError
  end.

(** The bytes [str.split()] treats as separators: tab, line feed, vertical
    tab, form feed, carriage return and space. *)
Definition isspace (c : ascii) : bool :=
  let n := nat_of_ascii c in
  ((9 <=? n)%nat && (n <=? 13)%nat) || (n =? 32)%nat.

(** [s.split()]: the maximal runs of non-separator bytes, in order.
    [word] is the run being read. *)
Fixpoint split_from (word : string) (s : string) : list string :=
  match s with
  | EmptyString => if String.eqb word "" then [] else [word]
  | String c s' =>
      if isspace c then
        if String.eqb word "" then split_from "" s'
        else word :: split_from "" s'
      else split_from (word +:+ String c "") s'
  end.

Definition split (s : string) : list string := split_from "" s.

(** [s.endswith(suffix)]. *)
Fixpoint endswith (s suffix : string) : bool :=
  if String.eqb s suffix then true
  else match s with
       | EmptyString => false
       | String _ s' => endswith s' suffix
       end.

(** A string without a separator byte. *)
Fixpoint spaceless (s : string) : bool :=
  match s with
  | EmptyString => true
  | String c s' => negb (isspace c) && spaceless s'
  end.

(** [sep.join(l)]. *)
Fixpoint join (sep : string) (l : list string) : string :=
  match l with
  | [] => ""
  | [x] => x
  | x :: l' => x +:+ sep +:+ join sep l'
  end.

(** [sys.maxint]. *)
Definition maxint : Z := 2 ^ 63 - 1.

(** [float(n)] for an [int] below [2^63]. *)
Definition float_of (n : Z) : float := PrimFloat.of_uint63 (Uint63.of_Z n).

End Py.

(** The line-break marker. *)
Definition NL : string := String "010"%char EmptyString.

(** ** [read_file] *)

(** The body of the loop over the lines. *)
Definition read_line (words : list string) (line : string) : outcome (list string) :=
  let tmp := Py.split line in
  if 1 <? Py.len tmp then
    last ← Py.getitem tmp (-1);
    tmp' ← Py.setitem tmp (-1) (last +:+ NL);
    Ret (words ++ tmp')
  else Ret words.

Definition read_file (lines : list string) : outcome (list string) :=
  for_each read_line [] lines.

(** [read_file(filename)] with the file system made explicit: [fs] maps the
    name of every file that can be opened for reading to the lines
    [readlines] returns for it. [open] raises [IOError] on any other name,
    before the loop. *)
Definition read_file_at (fs : gmap string (list string)) (filename : string)
  : outcome (list string) :=
  match fs !! filename with
  | Some lines => read_file lines
  | None => Raise IOError
  end.

(** ** [generate_chain] and [create_database] *)

Definition generate_chain (words : list string) (chain_length : Z) : list (list string) :=
  (fun i => Py.slice words i (i + chain_length))
    <$> Py.range (Py.len words - chain_length + 1).

(** The body of the loop over the chains. *)
Definition add_chain (db : gmap (list string) (list string)) (chain : list string)
  : outcome (gmap (list string) (list string)) :=
  let key := Py.slice_to chain (-1) in
  match db !! key with
  | Some successors =>
      w ← Py.getitem chain (-1);
      Ret (<[key := successors ++ [w]]> db)
  | None =>
      w ← Py.getitem chain (-1);
      Ret (<[key := [w]]> db)
  end.

Definition create_database (words : list string) (chain_length : Z)
  : outcome (gmap (list string) (list string)) :=
  for_each add_chain ∅ (generate_chain words chain_length).

(** ** The random source *)

(** A computation that reads the oracle: it is given the cursor and hands
    back the cursor it leaves, also when it raises. *)
Definition rnd (A : Type) : Type := nat -> outcome A * nat.

#[global] Instance rnd_ret : MRet rnd := fun A a c => (Ret a, c).
#[global] Instance rnd_bind : MBind rnd := fun A B k m c =>
  match m c with
  | (Ret a, c') => k a c'
  | (Raise e, c') => (Raise e, c')
  | (Timeout, c') => (Timeout, c')
  end.

Definition raise {A : Type} (e : exn) : rnd A := fun c => (Raise e, c).
Definition timeout {A : Type} : rnd A := fun c => (Timeout, c).
Definition lift {A : Type} (m : outcome A) : rnd A := fun c => (m, c).

Section Random.
Variable rand : nat -> nat.

(** One number from the oracle. *)
Definition draw : rnd nat := fun c => (Ret (rand c), S c).

(** [random.randint(a, b)]: an integer of [a..b], [ValueError] on an empty
    range. *)
Definition randint (a b : Z) : rnd Z :=
  if b <? a then raise ValueError
  else r ← draw; mret (a + Z.of_nat r `mod` (b - a + 1)).

(** [random.choice(seq)]: the element at a drawn position, [IndexError] on
    an empty sequence. *)
Definition choice {A : Type} (seq : list A) : rnd A :=
  r ← draw;
  match seq !! (r mod length seq)%nat with
  | Some x => mret x
  | None => raise IndexError
  end.
End Random.

(** ** [do_markov] *)

(** The local variables of [do_markov]; [next_word] is unbound until the
    first successful lookup. *)
Record locals : Type := Locals {
  start : list string;
  generated : list string;
  current : Z;
  next_word : option string
}.

Section DoMarkov.
Variable rand : nat -> nat.
Variable words : list string.
Variable db : gmap (list string) (list string).
Variable chain_length : Z.
Variable size : Z.

Definition random_word : rnd (list string) :=
  seed ← randint rand 0 (Py.len words - chain_length);
  mret (Py.slice words seed (seed + chain_length - 1)).

(** The [while True] loop: look the window up, and on [KeyError] take a new
    random window and look again. It returns the window that was found and
    the word chosen after it. *)
Fixpoint lookup_loop (fuel : nat) (start : list string) : rnd (list string * string) :=
  match fuel with
  | O => timeout
  | S fuel' =>
      match db !! start with
      | Some successors =>
          next_word ← choice rand successors;
          mret (start, next_word)
      | None =>
          start' ← random_word;
          lookup_loop fuel' start'
      end
  end.

(** One turn of the [while current < size] loop. *)
Definition loop_body (fuel : nat) (st : locals) : rnd locals :=
  w ← lift (Py.getitem (start st) 0);
  let generated' := generated st ++ [w] in
  '(start', next_word') ← lookup_loop fuel (start st);
  let start'' := Py.slice_from start' 1 ++ [next_word'] in
  let current' :=
    if Py.endswith next_word' NL then current st + 1 else current st in
  mret (Locals start'' generated' current' (Some next_word')).

Fixpoint main_loop (fuel : nat) (st : locals) : rnd locals :=
  if current st <? size then
    match fuel with
    | O => timeout
    | S fuel' => st' ← loop_body fuel' st; main_loop fuel' st'
    end
  else mret st.

(** The statements after the loop. *)
Definition finish (st : locals) : rnd string :=
  match next_word st with
  | Some w => mret (Py.join " " (generated st ++ [w]))
  | None => raise UnboundLocalError
  end.

Definition do_markov (fuel : nat) : rnd string :=
  start0 ← random_word;
  st ← main_loop fuel (Locals start0 [] 0 None);
  finish st.
End DoMarkov.

(** ** [db_stats] *)

(** What [db_stats] prints, line by line. *)
Record stats : Type := Stats {
  num_keys : Z;
  avg_options : float;
  min_len : Z;
  max_len : Z;
  sum_squares : float;
  std_deviation : float
}.

(** The first loop: [(min_len, max_len, num_options)]. *)
Definition count_options (acc : Z * Z * Z) (entry : list string * list string)
  : Z * Z * Z :=
  let '(min_len, max_len, num_options) := acc in
  let tmp_len := Py.len entry.2 in
  let num_options := num_options + tmp_len in
  let max_len := if max_len <? tmp_len then tmp_len else max_len in
  let min_len := if tmp_len <? min_len then tmp_len else min_len in
  (min_len, max_len, num_options).

(** The second loop. *)
Definition add_square (avg_options : float) (sum_squares : float)
  (entry : list string * list string) : float :=
  let d := (Py.float_of (Py.len entry.2) - avg_options)%float in
  (sum_squares + d * d)%float.

Definition db_stats (db : gmap (list string) (list string)) : outcome stats :=
  let num_keys := Z.of_nat (size db) in
  let '(min_len, max_len, num_options) :=
    foldl count_options (Py.maxint, 0, 0) (map_to_list db) in
  if num_keys =? 0 then Raise ZeroDivisionError
  else
    let avg_options := (Py.float_of num_options / Py.float_of num_keys)%float in
    let sum_squares := foldl (add_square avg_options) 0%float (map_to_list db) in
    Ret (Stats num_keys avg_options min_len max_len sum_squares
           (PrimFloat.sqrt sum_squares)).

(** ** Notions of the specification *)

(** The number of tokens that carry the line-break marker. *)
Definition marker_count (tokens : list string) : nat :=
  length (List.filter (fun w => Py.endswith w NL) tokens).

(** The tokenizer in the specification's words: a line qualifies when it
    splits into at least two sub-tokens; it contributes its sub-tokens, the
    last one with the marker appended. *)
Definition qualifies (line : string) : Prop :=
  (2 <= length (Py.split line))%nat.

#[global] Instance qualifies_dec (line : string) : Decision (qualifies line).
Proof. unfold qualifies. apply _. Defined.

Definition line_tokens (line : string) : list string :=
  let sub := Py.split line in
  take (length sub - 1) sub ++ [List.last sub "" +:+ NL].

Definition tokenizer_spec (lines : list string) : list string :=
  concat (line_tokens <$> filter qualifies lines).

(** The sliding windows of width [k], in the specification's words: one at
    every offset from [0] to [length tokens - k]. *)
Definition windows (k : nat) (tokens : list string) : list (list string) :=
  (fun i => take k (drop i tokens)) <$> seq 0 (length tokens + 1 - k).

(** A window split into its context (all tokens but the last) and its
    successor (the last token). *)
Definition context_successor (w : list string) : list string * string :=
  (take (length w - 1) w, List.last w "").

(** The (context, successor) pairs a database holds, with multiplicity. *)
Definition db_pairs (db : gmap (list string) (list string))
  : list (list string * string) :=
  entry ← map_to_list db; pair entry.1 <$> entry.2.

(** No key of the database has an empty successor list. *)
Definition branching (db : gmap (list string) (list string)) : Prop :=
  forall key successors, db !! key = Some successors -> (1 <= length successors)%nat.

(** ** The corpus of the specification's example *)

Definition ex_lines : list string :=
  ["the cat sat" +:+ NL; "the dog ran" +:+ NL].

Definition ex_words : list string :=
  ["the"; "cat"; "sat" +:+ NL; "the"; "dog"; "ran" +:+ NL].

Definition ex_db : gmap (list string) (list string) :=
  list_to_map
    [ (["the"; "cat"], ["sat" +:+ NL]);
      (["cat"; "sat" +:+ NL], ["the"]);
      (["sat" +:+ NL; "the"], ["dog"]);
      (["the"; "dog"], ["ran" +:+ NL]) ].

(** A database with branching factors 2 and 1:
    [create_database(["a","b","a","c"], 2)]. *)
Definition ab_words : list string := ["a"; "b"; "a"; "c"].

Definition ab_db : gmap (list string) (list string) :=
  list_to_map [ (["a"], ["b"; "c"]); (["b"], ["a"]) ].

(** ** The script *)

(** The block under [if __name__ == '__main__']: the file
    [shakespeare_sonnet.txt] is read, the database built with chains of
    three, a text of thirteen lines generated and printed, and the statistics
    printed after it. The result is the text printed and what [db_stats] then
    does. *)
Definition main (fs : gmap string (list string)) (rand : nat -> nat) (fuel : nat)
  : rnd (string * outcome stats) :=
  words ← lift (read_file_at fs "shakespeare_sonnet.txt");
  db ← lift (create_database words 3);
  text ← do_markov rand words db 3 13 fuel;
  mret (text, db_stats db).

(** ** Further notions *)

(** The words that follow [key] in a list of chains, in the order of the
    chains. *)
Definition successors_in (key : list string) (chains : list (list string))
  : list string :=
  snd <$> filter (fun p => p.1 = key) (context_successor <$> chains).

(** A word as [str.split()] returns it. *)
Definition is_word (w : string) : Prop := Py.spaceless w = true /\ w <> "".

(** What the loop of [do_markov] keeps when the database was built from
    [words] with chains of [k]: a window of [k - 1] words, and nothing but
    words of the text in the window, in the accumulator and in [next_word]. *)
Definition walking (words : list string) (k : nat) (st : locals) : Prop :=
  length (start st) = (k - 1)%nat /\
  Forall (fun w => w ∈ words) (start st) /\
  Forall (fun w => w ∈ words) (generated st) /\
  (forall w, next_word st = Some w -> w ∈ words).

(** * Properties *)

(** ** Outcomes *)

Lemma for_each_app {A S : Type} (body : S -> A -> outcome S) (s : S) (xs ys : list A) :
  for_each body s (xs ++ ys) = s' ← for_each body s xs; for_each body s' ys.
Proof.
  revert s. induction xs as [|x xs IH]; intros s; simpl; [done|].
  destruct (body s x) as [s'| |]; simpl; [apply IH|done|done].
Qed.

(** ** The Python runtime *)

Lemma index_last {A : Type} (l : list A) (a : A) :
  Py.index (l ++ [a]) (-1) = Some (length l).
Proof.
  unfold Py.index, Py.len. rewrite length_app. simpl.
  replace (-1 <? 0) with true by done.
  rewrite (proj2 (Z.leb_le 0 _)) by lia.
  rewrite (proj2 (Z.ltb_lt _ _)) by lia.
  simpl. f_equal. lia.
Qed.

Lemma getitem_last {A : Type} (l : list A) (a : A) :
  Py.getitem (l ++ [a]) (-1) = Ret a.
Proof.
  unfold Py.getitem. rewrite index_last.
  by rewrite list_lookup_middle.
Qed.

Lemma setitem_last {A : Type} (l : list A) (a x : A) :
  Py.setitem (l ++ [a]) (-1) x = Ret (l ++ [x]).
Proof.
  unfold Py.setitem. rewrite index_last. f_equal.
  rewrite insert_app_r_alt by lia. by rewrite Nat.sub_diag.
Qed.

(** A non-empty list seen from its end. *)
Lemma snoc_view {A : Type} (l : list A) (d : A) :
  l <> [] -> l = take (length l - 1) l ++ [List.last l d].
Proof.
  intros Hne. destruct l as [|a l] using rev_ind; [done|].
  rewrite length_app, last_last. simpl.
  replace (length l + 1 - 1)%nat with (length l) by lia.
  by rewrite take_app_length.
Qed.

(** ** [str.split] and [str.endswith] *)

Lemma spaceless_snoc (w : string) (c : ascii) :
  Py.spaceless w = true -> Py.isspace c = false ->
  Py.spaceless (w +:+ String c "") = true.
Proof.
  intros Hw Hc. induction w as [|a w IH]; simpl in *.
  - by rewrite Hc.
  - apply andb_true_iff in Hw as [Ha Hw]. rewrite Ha. simpl. by apply IH.
Qed.

(** Every word [split] returns is non-empty and free of separators. *)
Lemma split_from_words (s word : string) :
  Py.spaceless word = true ->
  Forall (fun w => Py.spaceless w = true /\ w <> "") (Py.split_from word s).
Proof.
  revert word. induction s as [|c s IH]; intros word Hword; simpl.
  - destruct (String.eqb_spec word ""); [constructor|].
    by repeat constructor.
  - destruct (Py.isspace c) eqn:Hc.
    + destruct (String.eqb_spec word "").
      * by apply IH.
      * constructor; [done|]. by apply IH.
    + apply IH. by apply spaceless_snoc.
Qed.

Lemma split_words (s : string) :
  Forall (fun w => Py.spaceless w = true /\ w <> "") (Py.split s).
Proof. by apply split_from_words. Qed.

Lemma endswith_spaceless (w : string) :
  Py.spaceless w = true -> Py.endswith w NL = false.
Proof.
  induction w as [|c w IH]; intros Hw; [done|].
  simpl in Hw. apply andb_true_iff in Hw as [Hc Hw].
  cbn [Py.endswith]. rewrite IH by done.
  replace (String c w =? NL)%string with false; [done|].
  symmetry. apply String.eqb_neq. intros [= -> _]. by compute in Hc.
Qed.

Lemma endswith_marked (w : string) : Py.endswith (w +:+ NL) NL = true.
Proof.
  induction w as [|c w IH]; [done|].
  change (String c w +:+ NL) with (String c (w +:+ NL)).
  cbn [Py.endswith]. rewrite IH. by destruct (_ =? _)%string.
Qed.

(** ** [read_file] against the tokenizer of the specification *)

Lemma marker_count_app (xs ys : list string) :
  marker_count (xs ++ ys) = (marker_count xs + marker_count ys)%nat.
Proof. unfold marker_count. by rewrite List.filter_app, length_app. Qed.

Lemma marker_count_spaceless (ws : list string) :
  Forall (fun w => Py.spaceless w = true /\ w <> "") ws -> marker_count ws = 0%nat.
Proof.
  induction 1 as [|w ws [Hw _] _ IH]; [done|].
  unfold marker_count in *. simpl. by rewrite endswith_spaceless.
Qed.

Lemma read_line_spec (words : list string) (line : string) :
  read_line words line =
  Ret (words ++ if decide (qualifies line) then line_tokens line else []).
Proof.
  unfold read_line, qualifies, line_tokens, Py.len.
  destruct (decide _) as [Hq|Hq].
  - rewrite (proj2 (Z.ltb_lt _ _)) by lia.
    assert (Py.split line <> []) as Hne by (intros E; rewrite E in Hq; simpl in Hq; lia).
    pose proof (snoc_view (Py.split line) "" Hne) as Hview.
    set (front := take _ _) in *. set (w := List.last _ _) in *.
    rewrite Hview, getitem_last. simpl. by rewrite setitem_last.
  - rewrite (proj2 (Z.ltb_ge _ _)) by lia. by rewrite app_nil_r.
Qed.

Lemma read_lines_spec (lines words : list string) :
  for_each read_line words lines = Ret (words ++ tokenizer_spec lines).
Proof.
  revert words. induction lines as [|line lines IH]; intros words.
  - by rewrite app_nil_r.
  - cbn [for_each]. rewrite read_line_spec.
    change (mbind ?k (Ret ?a)) with (k a). cbv beta. rewrite IH.
    unfold tokenizer_spec. rewrite filter_cons.
    destruct (decide _); [|by rewrite app_nil_r].
    by rewrite fmap_cons, concat_cons, app_assoc.
Qed.

Lemma read_file_spec (lines : list string) :
  read_file lines = Ret (tokenizer_spec lines).
Proof. apply read_lines_spec. Qed.

(** A qualifying line contributes its sub-tokens; only the last carries the
    marker. *)
Lemma line_tokens_marker (line : string) (i : nat) (w : string) :
  line_tokens line !! i = Some w ->
  Py.endswith w NL = true <-> S i = length (line_tokens line).
Proof.
  unfold line_tokens. set (sub := Py.split line). set (n := (length sub - 1)%nat).
  assert (Forall (fun w => Py.spaceless w = true /\ w <> "") (take n sub)) as Hsub
    by (apply Forall_take, split_words).
  rewrite length_app. simpl. intros Hi.
  destruct (decide (i < length (take n sub))%nat) as [Hlt|Hge].
  - rewrite lookup_app_l in Hi by done.
    eapply Forall_lookup_1 in Hsub as [Hw _]; [|done].
    rewrite endswith_spaceless by done. split; [done|lia].
  - rewrite lookup_app_r in Hi by lia.
    apply list_lookup_singleton_Some in Hi as [Hi <-].
    rewrite endswith_marked. split; [lia|done].
Qed.

Lemma line_tokens_count (line : string) : marker_count (line_tokens line) = 1%nat.
Proof.
  unfold line_tokens. rewrite marker_count_app.
  rewrite marker_count_spaceless by (apply Forall_take, split_words).
  unfold marker_count. simpl. by rewrite endswith_marked.
Qed.

Lemma blocks_count (ls : list string) :
  marker_count (concat (line_tokens <$> ls)) = length ls.
Proof.
  induction ls as [|l ls IH]; [done|].
  rewrite fmap_cons, concat_cons, marker_count_app, line_tokens_count, IH. done.
Qed.

(** C9: [read_file] is the tokenizer of the specification: every line is
    split on whitespace (its sub-tokens are non-empty and hold no whitespace
    byte), a line with fewer than two sub-tokens contributes nothing, a
    qualifying line contributes its sub-tokens in order with the marker
    concatenated to the last one, and no line gives no token. *)
Theorem C9_read_file_tokenizer (lines : list string) :
  read_file lines = Ret (tokenizer_spec lines) /\
  read_file [] = Ret [] /\
  (forall line, Forall (fun w => Py.spaceless w = true /\ w <> "") (Py.split line)) /\
  (forall line, ~ qualifies line -> read_file [line] = Ret []) /\
  (forall line, qualifies line ->
     exists front w, Py.split line = front ++ [w] /\
                     read_file [line] = Ret (front ++ [w +:+ NL])).
Proof.
  split; [apply read_file_spec|]. split; [done|]. split; [apply split_words|]. split.
  - intros line Hq. rewrite read_file_spec. unfold tokenizer_spec.
    by rewrite filter_cons_False.
  - intros line Hq. exists (take (length (Py.split line) - 1) (Py.split line)).
    exists (List.last (Py.split line) ""). split.
    + apply snoc_view. intros E. unfold qualifies in Hq. rewrite E in Hq. simpl in Hq. lia.
    + rewrite read_file_spec. unfold tokenizer_spec.
      rewrite filter_cons_True by done. simpl. by rewrite app_nil_r.
Qed.

(** C10: in the output of [read_file] the tokens come in blocks, one for
    each line with at least two words; inside a block exactly the last
    token ends with the marker, so the marker-ending tokens are as many as
    those lines. *)
Theorem C10_markers_close_lines (lines : list string) :
  let blocks := line_tokens <$> filter qualifies lines in
  read_file lines = Ret (concat blocks) /\
  Forall (fun b => forall i w, b !! i = Some w ->
                   Py.endswith w NL = true <-> S i = length b) blocks /\
  marker_count (concat blocks) = length (filter qualifies lines).
Proof.
  cbv zeta. split; [apply read_file_spec|]. split.
  - apply Forall_fmap, Forall_forall. intros line _ i w. apply line_tokens_marker.
  - apply blocks_count.
Qed.

(** ** Slices *)

Lemma slice_inside {A : Type} (l : list A) (i k : nat) :
  (i + k <= length l)%nat ->
  Py.slice l (Z.of_nat i) (Z.of_nat i + Z.of_nat k) = take k (drop i l).
Proof.
  intros Hik. unfold Py.slice, Py.clip, Py.len.
  rewrite (proj2 (Z.ltb_ge (Z.of_nat i) 0)) by lia.
  rewrite (proj2 (Z.ltb_ge (Z.of_nat i + Z.of_nat k) 0)) by lia.
  rewrite !Z.min_l by lia. f_equal; [lia|]. f_equal. lia.
Qed.

Lemma slice_to_front {A : Type} (l : list A) (a : A) :
  Py.slice_to (l ++ [a]) (-1) = l.
Proof.
  unfold Py.slice_to, Py.slice, Py.clip, Py.len. rewrite length_app. simpl.
  replace (0 <? 0) with false by done. replace (-1 <? 0) with true by done.
  rewrite Z.min_l, Z.max_r by lia. simpl.
  replace (Z.to_nat (-1 + Z.of_nat (length l + 1) - 0)) with (length l) by lia.
  change (Z.to_nat 0) with 0%nat. by rewrite drop_0, take_app_length.
Qed.

Lemma slice_from_tail {A : Type} (l : list A) : Py.slice_from l 1 = tail l.
Proof.
  unfold Py.slice_from, Py.slice, Py.clip, Py.len.
  replace (1 <? 0) with false by done.
  rewrite (proj2 (Z.ltb_ge (Z.of_nat (length l)) 0)) by lia.
  rewrite Z.min_id. destruct l as [|a l]; [done|].
  rewrite Z.min_l by (simpl; lia). simpl length.
  replace (Z.to_nat (Z.of_nat (S (length l)) - 1)) with (length l) by lia.
  simpl. by rewrite take_ge.
Qed.

(** ** [generate_chain] *)

Lemma range_nonpositive (n : Z) : n <= 0 -> Py.range n = [].
Proof. intros Hn. unfold Py.range. by replace (Z.to_nat n) with 0%nat by lia. Qed.

(** The chains are the windows of width [chain_length]. *)
Lemma generate_chain_windows (words : list string) (k : nat) :
  (k <= length words)%nat ->
  generate_chain words (Z.of_nat k) = windows k words.
Proof.
  intros Hk. unfold generate_chain, windows, Py.range, Py.len.
  replace (Z.to_nat (Z.of_nat (length words) - Z.of_nat k + 1))
    with (length words + 1 - k)%nat by lia.
  rewrite <- list_fmap_compose. apply list_fmap_ext.
  intros j i Hi. apply lookup_seq in Hi as [-> Hj]. simpl.
  apply slice_inside. lia.
Qed.

Lemma windows_length (words : list string) (k : nat) :
  Forall (fun w => length w = k) (windows k words).
Proof.
  unfold windows. apply Forall_fmap, Forall_forall. intros i Hi.
  apply elem_of_seq in Hi. simpl. rewrite length_take, length_drop. lia.
Qed.

(** ** [create_database] *)

(** What one chain does to the database: its last word joins the successors
    of its front. *)
Lemma add_chain_snoc (db : gmap (list string) (list string))
    (front : list string) (w : string) :
  add_chain db (front ++ [w]) =
  Ret (<[front := default [] (db !! front) ++ [w]]> db).
Proof.
  unfold add_chain. rewrite slice_to_front, getitem_last.
  by destruct (db !! front).
Qed.

Lemma context_successor_snoc (front : list string) (w : string) :
  context_successor (front ++ [w]) = (front, w).
Proof.
  unfold context_successor. rewrite last_last, length_app. simpl.
  replace (length front + 1 - 1)%nat with (length front) by lia.
  by rewrite take_app_length.
Qed.

Lemma db_pairs_insert (db : gmap (list string) (list string))
    (key : list string) (w : string) :
  db_pairs (<[key := default [] (db !! key) ++ [w]]> db) ≡ₚ db_pairs db ++ [(key, w)].
Proof.
  unfold db_pairs. destruct (db !! key) as [successors|] eqn:Hkey; simpl.
  - rewrite <- insert_delete_eq.
    rewrite map_to_list_insert by apply lookup_delete_eq.
    rewrite <- (map_to_list_delete db key successors Hkey).
    rewrite !bind_cons. simpl. rewrite fmap_app. simpl.
    rewrite <- !app_assoc. apply Permutation_app_head, Permutation_app_comm.
  - rewrite map_to_list_insert by done. rewrite bind_cons. simpl.
    apply Permutation_cons_append.
Qed.

Lemma branching_insert (db : gmap (list string) (list string))
    (key : list string) (w : string) :
  branching db -> branching (<[key := default [] (db !! key) ++ [w]]> db).
Proof.
  intros Hdb key' successors. rewrite lookup_insert. case_decide.
  - intros [= <-]. rewrite length_app. simpl. lia.
  - apply Hdb.
Qed.

(** The loop of [create_database] over chains that are not empty. *)
Lemma add_chains (chains : list (list string)) (db : gmap (list string) (list string)) :
  Forall (fun chain => chain <> []) chains ->
  branching db ->
  exists db', for_each add_chain db chains = Ret db' /\
              branching db' /\
              db_pairs db' ≡ₚ db_pairs db ++ (context_successor <$> chains).
Proof.
  intros Hchains. revert db.
  induction Hchains as [|chain chains Hne _ IH]; intros db Hdb.
  - exists db. by rewrite app_nil_r.
  - rewrite (snoc_view chain "" Hne). set (front := take _ _). set (w := List.last _ _).
    cbn [for_each]. rewrite add_chain_snoc.
    destruct (IH _ (branching_insert db front w Hdb)) as (db' & Hrun & Hbr & Hperm).
    exists db'. split; [done|]. split; [done|].
    rewrite Hperm, db_pairs_insert, fmap_cons, context_successor_snoc.
    by rewrite <- app_assoc.
Qed.

Lemma branching_empty : branching ∅.
Proof. intros key successors. by rewrite lookup_empty. Qed.

Lemma create_database_short (words : list string) (chain_length : Z) :
  Py.len words < chain_length -> create_database words chain_length = Ret ∅.
Proof.
  intros Hshort. unfold create_database, generate_chain.
  by rewrite range_nonpositive by lia.
Qed.

Lemma create_database_windows (words : list string) (k : nat) :
  (2 <= k)%nat -> (k <= length words)%nat ->
  exists db, create_database words (Z.of_nat k) = Ret db /\
             (forall key successors,
                db !! key = Some successors ->
                length key = (k - 1)%nat /\ (1 <= length successors)%nat) /\
             db_pairs db ≡ₚ context_successor <$> windows k words.
Proof.
  intros Hk Hlen. unfold create_database. rewrite generate_chain_windows by done.
  pose proof (windows_length words k) as Hwin.
  destruct (add_chains (windows k words) ∅) as (db & Hrun & Hbr & Hperm).
  { eapply Forall_impl; [exact Hwin|]. intros w Hw ->. simpl in Hw. lia. }
  { apply branching_empty. }
  exists db. split; [done|]. split; [|done].
  intros key successors Hkey. split; [|by eapply Hbr].
  assert (exists w, (key, w) ∈ db_pairs db) as [w Hin].
  { destruct successors as [|w ?]; [apply Hbr in Hkey; simpl in Hkey; lia|].
    exists w. unfold db_pairs. apply list_elem_of_bind.
    exists (key, w :: successors). split; [simpl; left|].
    by apply elem_of_map_to_list. }
  rewrite Hperm in Hin. apply list_elem_of_fmap in Hin as (win & Heq & Hwin').
  eapply Forall_forall in Hwin; [|exact Hwin'].
  unfold context_successor in Heq. injection Heq as -> _.
  rewrite length_take. lia.
Qed.

(** C6: for an order of at least two and at least that many tokens,
    [create_database] returns a mapping in which every key has k-1 tokens
    and every successor list has a member, and whose (context, successor)
    pairs are, as a multiset, the width-k sliding windows of the input, each
    split into its first k-1 tokens and its last token. *)
Theorem C6_database_is_windows (words : list string) (chain_length : Z) :
  2 <= chain_length -> chain_length <= Py.len words ->
  exists db, create_database words chain_length = Ret db /\
             (forall key successors,
                db !! key = Some successors ->
                Py.len key = chain_length - 1 /\ 1 <= Py.len successors) /\
             db_pairs db ≡ₚ context_successor <$> windows (Z.to_nat chain_length) words.
Proof.
  intros Hk Hlen. unfold Py.len in *.
  destruct (create_database_windows words (Z.to_nat chain_length))
    as (db & Hrun & Hkeys & Hperm); [lia|lia|].
  rewrite Z2Nat.id in Hrun by lia.
  exists db. split; [done|]. split; [|done].
  intros key successors Hkey. apply Hkeys in Hkey. lia.
Qed.

Lemma C6_database_is_windows_witness :
  exists db, create_database ex_words 3 = Ret db /\
             (forall key successors,
                db !! key = Some successors ->
                Py.len key = 3 - 1 /\ 1 <= Py.len successors) /\
             db_pairs db ≡ₚ context_successor <$> windows (Z.to_nat 3) ex_words.
Proof. apply (C6_database_is_windows ex_words 3); unfold Py.len; simpl; lia. Defined.

(** C8: on a token sequence shorter than the order [create_database] does
    not raise: it returns the mapping without keys. *)
Theorem C8_short_corpus_empty_model (words : list string) (chain_length : Z) :
  Py.len words < chain_length ->
  create_database words chain_length = Ret ∅.
Proof. apply create_database_short. Qed.

Lemma C8_short_corpus_empty_model_witness :
  create_database ["the"; "cat"] 3 = Ret ∅.
Proof. apply (C8_short_corpus_empty_model ["the"; "cat"] 3). unfold Py.len. simpl. lia. Defined.

(** ** The random source *)

Ltac rnd_unfold :=
  unfold mbind, mret, rnd_bind, rnd_ret, raise, timeout, lift, draw in *.

Lemma randint_inside (rand : nat -> nat) (a b : Z) (c : nat) :
  a <= b ->
  exists n, a <= n <= b /\ randint rand a b c = (Ret n, S c).
Proof.
  intros Hab. unfold randint. rewrite (proj2 (Z.ltb_ge b a)) by lia.
  rnd_unfold. eexists. split; [|done].
  pose proof (Z.mod_pos_bound (Z.of_nat (rand c)) (b - a + 1)). lia.
Qed.

Lemma randint_empty (rand : nat -> nat) (a b : Z) (c : nat) :
  b < a -> randint rand a b c = (Raise ValueError, c).
Proof. intros Hab. unfold randint. by rewrite (proj2 (Z.ltb_lt b a)) by lia. Qed.

Lemma choice_position {A : Type} (rand : nat -> nat) (seq : list A) (c : nat) (x : A) :
  seq !! (rand c mod length seq)%nat = Some x ->
  choice rand seq c = (Ret x, S c).
Proof. intros Hx. unfold choice. rnd_unfold. by rewrite Hx. Qed.

Lemma choice_singleton {A : Type} (rand : nat -> nat) (x : A) (c : nat) :
  choice rand [x] c = (Ret x, S c).
Proof. apply choice_position. cbn [length]. by rewrite Nat.mod_1_r. Qed.

(** ** [do_markov] *)

Section Generator.
Variable rand : nat -> nat.
Variable words : list string.
Variable db : gmap (list string) (list string).
Variable chain_length : Z.

Lemma random_word_inside (c : nat) :
  chain_length <= Py.len words ->
  exists seed, 0 <= seed <= Py.len words - chain_length /\
    random_word rand words chain_length c =
    (Ret (Py.slice words seed (seed + chain_length - 1)), S c).
Proof.
  intros Hlen. unfold random_word.
  destruct (randint_inside rand 0 (Py.len words - chain_length) c)
    as (seed & Hseed & Hrun); [lia|].
  exists seed. split; [done|]. unfold mbind, rnd_bind. by rewrite Hrun.
Qed.

Lemma random_word_short (c : nat) :
  Py.len words < chain_length ->
  random_word rand words chain_length c = (Raise ValueError, c).
Proof.
  intros Hlen. unfold random_word, mbind, rnd_bind.
  by rewrite randint_empty by lia.
Qed.

Lemma lookup_loop_found (fuel : nat) (start : list string) (c : nat)
    (successors : list string) (w : string) :
  db !! start = Some successors ->
  successors !! (rand c mod length successors)%nat = Some w ->
  lookup_loop rand words db chain_length (S fuel) start c = (Ret (start, w), S c).
Proof.
  intros Hkey Hw. cbn [lookup_loop]. rewrite Hkey.
  unfold mbind, rnd_bind. by rewrite (choice_position rand successors c w).
Qed.

Lemma lookup_loop_missing (fuel : nat) (start : list string) (c : nat) :
  db !! start = None ->
  lookup_loop rand words db chain_length (S fuel) start c =
  (random_word rand words chain_length
     ≫= lookup_loop rand words db chain_length fuel) c.
Proof. intros Hkey. cbn [lookup_loop]. by rewrite Hkey. Qed.

(** Whatever the retries, the loop ends on a key of the database and a
    member of its list. *)
Lemma lookup_loop_result (fuel : nat) (start window : list string) (w : string)
    (c c' : nat) :
  lookup_loop rand words db chain_length fuel start c = (Ret (window, w), c') ->
  exists successors, db !! window = Some successors /\ w ∈ successors.
Proof.
  revert start c. induction fuel as [|fuel IH]; intros start c; [done|].
  cbn [lookup_loop]. destruct (db !! start) as [successors|] eqn:Hkey.
  - unfold choice. rnd_unfold.
    destruct (successors !! _) as [x|] eqn:Hx; [|done].
    intros [= <- <- <-]. exists successors. split; [done|].
    by eapply list_elem_of_lookup_2.
  - unfold mbind, rnd_bind.
    destruct (random_word rand words chain_length c) as [[start'| |] c0]; [|done|done].
    apply IH.
Qed.

Lemma loop_body_result (fuel : nat) (st st' : locals) (c c' : nat) :
  loop_body rand words db chain_length fuel st c = (Ret st', c') ->
  exists head window w,
    Py.getitem (start st) 0 = Ret head /\
    lookup_loop rand words db chain_length fuel (start st) c = (Ret (window, w), c') /\
    st' = Locals (tail window ++ [w]) (generated st ++ [head])
                 (if Py.endswith w NL then current st + 1 else current st)
                 (Some w).
Proof.
  unfold loop_body. rnd_unfold.
  destruct (Py.getitem (start st) 0) as [head| |]; [|done|done].
  destruct (lookup_loop _ _ _ _ _ _ _) as [[[window w]| |] c0]; [|done|done].
  intros [= <- <-]. exists head, window, w. by rewrite slice_from_tail.
Qed.
End Generator.

(** ** The outer loop *)

Section Lines.
Variable rand : nat -> nat.
Variable words : list string.
Variable db : gmap (list string) (list string).
Variable chain_length : Z.
Variable size : Z.

Lemma main_loop_done (fuel : nat) (st : locals) (c : nat) :
  size <= current st ->
  main_loop rand words db chain_length size fuel st c = (Ret st, c).
Proof.
  intros Hdone. destruct fuel; cbn [main_loop];
    by rewrite (proj2 (Z.ltb_ge _ _)) by lia.
Qed.

Lemma main_loop_turn (fuel : nat) (st : locals) (c : nat) :
  current st < size ->
  main_loop rand words db chain_length size (S fuel) st c =
  (loop_body rand words db chain_length fuel st
     ≫= main_loop rand words db chain_length size fuel) c.
Proof.
  intros Hturn. cbn [main_loop]. by rewrite (proj2 (Z.ltb_lt _ _)) by lia.
Qed.

(** A turn whose window is a key. *)
Lemma loop_body_found (fuel : nat) (st : locals) (c : nat)
    (head : string) (rest successors : list string) (w : string) :
  start st = head :: rest ->
  db !! start st = Some successors ->
  successors !! (rand c mod length successors)%nat = Some w ->
  loop_body rand words db chain_length (S fuel) st c =
  (Ret (Locals (rest ++ [w]) (generated st ++ [head])
          (if Py.endswith w NL then current st + 1 else current st)
          (Some w)), S c).
Proof.
  intros Hstart Hkey Hw. unfold loop_body, mbind, rnd_bind, lift.
  replace (Py.getitem (start st) 0) with (Ret head) by (by rewrite Hstart).
  rewrite (lookup_loop_found rand words db chain_length fuel _ c successors w Hkey Hw).
  by rewrite slice_from_tail, Hstart.
Qed.
End Lines.

(** *** The step in full *)

Section Step.
Variable rand : nat -> nat.
Variable words : list string.
Variable db : gmap (list string) (list string).
Variable chain_length : Z.

(** The window [random_word] returns, by the number drawn. *)
Lemma random_word_seed (c : nat) :
  chain_length <= Py.len words ->
  0 <= Z.of_nat (rand c) `mod` (Py.len words - chain_length + 1)
    <= Py.len words - chain_length /\
  random_word rand words chain_length c =
  (Ret (Py.slice words
          (Z.of_nat (rand c) `mod` (Py.len words - chain_length + 1))
          (Z.of_nat (rand c) `mod` (Py.len words - chain_length + 1)
           + chain_length - 1)), S c).
Proof.
  intros Hlen. split.
  - pose proof (Z.mod_pos_bound (Z.of_nat (rand c)) (Py.len words - chain_length + 1)).
    lia.
  - unfold random_word, randint.
    rewrite (proj2 (Z.ltb_ge (Py.len words - chain_length) 0)) by lia.
    rnd_unfold. by rewrite Z.sub_0_r, Z.add_0_l.
Qed.

(** A turn is the append of the head of the window, the lookup loop, and the
    slide of the window the loop ended on. *)
Lemma loop_body_unfold (fuel : nat) (st : locals) (c : nat)
    (head : string) (rest : list string) :
  start st = head :: rest ->
  loop_body rand words db chain_length fuel st c =
  match lookup_loop rand words db chain_length fuel (start st) c with
  | (Ret (window, w), c') =>
      (Ret (Locals (tail window ++ [w]) (generated st ++ [head])
              (if Py.endswith w NL then current st + 1 else current st)
              (Some w)), c')
  | (Raise e, c') => (Raise e, c')
  | (Timeout, c') => (Timeout, c')
  end.
Proof.
  intros Hstart. unfold loop_body, mbind, rnd_bind, lift.
  replace (Py.getitem (start st) 0) with (Ret head) by (by rewrite Hstart).
  destruct (lookup_loop _ _ _ _ _ _ _) as [[[window w]| |] c']; [|done|done].
  by rewrite slice_from_tail.
Qed.

Lemma loop_body_empty_window (fuel : nat) (st : locals) (c : nat) :
  start st = [] ->
  loop_body rand words db chain_length fuel st c = (Raise IndexError, c).
Proof. intros Hstart. unfold loop_body, mbind, rnd_bind, lift. by rewrite Hstart. Qed.

(** A turn that meets a dead end and whose new window is a key. *)
Lemma loop_body_restart (fuel : nat) (st : locals) (c : nat)
    (head : string) (rest window successors : list string) (w : string) :
  start st = head :: rest ->
  db !! start st = None ->
  random_word rand words chain_length c = (Ret window, S c) ->
  db !! window = Some successors ->
  successors !! (rand (S c) mod length successors)%nat = Some w ->
  loop_body rand words db chain_length (S (S fuel)) st c =
  (Ret (Locals (tail window ++ [w]) (generated st ++ [head])
          (if Py.endswith w NL then current st + 1 else current st)
          (Some w)), S (S c)).
Proof.
  intros Hstart Hdead Hnew Hkey Hw.
  rewrite (loop_body_unfold _ _ _ head rest Hstart).
  rewrite lookup_loop_missing by done. unfold mbind, rnd_bind. rewrite Hnew.
  by rewrite (lookup_loop_found rand words db chain_length fuel window (S c) successors w).
Qed.

Lemma lookup_loop_empty_list (fuel : nat) (start : list string) (c : nat) :
  db !! start = Some [] ->
  lookup_loop rand words db chain_length (S fuel) start c = (Raise IndexError, S c).
Proof. intros Hkey. cbn [lookup_loop]. by rewrite Hkey. Qed.
End Step.

(** C7: one generation step. The random window, at initialisation and at a
    restart alike, is [words[seed : seed + chain_length - 1]] for a seed of
    [0 .. len(words) - chain_length] given by one draw. A window that is a
    key gets one word of that key's list, the one at the drawn position, and
    the draw of a position gives the word at that position; a window that is
    not a key is replaced by a new random window and only the lookup is
    repeated. A step is the append of the head of the window it starts from,
    the lookup with its restarts, and the slide of the window the lookup
    ended on: that window without its first token and with the chosen word at
    its end; nothing else is appended, whatever the number of restarts. A
    step whose window is a key completes with one draw, and a step that meets
    a dead end and draws a key completes with two. *)
Theorem C7_generation_step (rand : nat -> nat) (words : list string)
    (db : gmap (list string) (list string)) (chain_length size : Z)
    (fuel : nat) (st : locals) (c : nat) :
  (chain_length <= Py.len words ->
     0 <= Z.of_nat (rand c) `mod` (Py.len words - chain_length + 1)
       <= Py.len words - chain_length /\
     random_word rand words chain_length c =
     (Ret (Py.slice words
             (Z.of_nat (rand c) `mod` (Py.len words - chain_length + 1))
             (Z.of_nat (rand c) `mod` (Py.len words - chain_length + 1)
              + chain_length - 1)), S c)) /\
  (Py.len words < chain_length ->
     random_word rand words chain_length c = (Raise ValueError, c)) /\
  do_markov rand words db chain_length size fuel
  = (start0 ← random_word rand words chain_length;
     st0 ← main_loop rand words db chain_length size fuel (Locals start0 [] 0 None);
     finish st0) /\
  (forall successors,
     db !! start st = Some successors -> successors <> [] ->
     exists w, successors !! (rand c mod length successors)%nat = Some w /\
               lookup_loop rand words db chain_length (S fuel) (start st) c
               = (Ret (start st, w), S c)) /\
  (forall successors i w,
     db !! start st = Some successors -> successors !! i = Some w ->
     rand c = i ->
     lookup_loop rand words db chain_length (S fuel) (start st) c
     = (Ret (start st, w), S c)) /\
  (db !! start st = Some [] ->
     lookup_loop rand words db chain_length (S fuel) (start st) c
     = (Raise IndexError, S c)) /\
  (db !! start st = None ->
     lookup_loop rand words db chain_length (S fuel) (start st) c
     = (random_word rand words chain_length
          ≫= lookup_loop rand words db chain_length fuel) c) /\
  lookup_loop rand words db chain_length 0 (start st) c = (Timeout, c) /\
  (start st = [] ->
     loop_body rand words db chain_length fuel st c = (Raise IndexError, c)) /\
  (forall head rest,
     start st = head :: rest ->
     loop_body rand words db chain_length fuel st c =
     match lookup_loop rand words db chain_length fuel (start st) c with
     | (Ret (window, w), c') =>
         (Ret (Locals (tail window ++ [w]) (generated st ++ [head])
                 (if Py.endswith w NL then current st + 1 else current st)
                 (Some w)), c')
     | (Raise e, c') => (Raise e, c')
     | (Timeout, c') => (Timeout, c')
     end) /\
  (forall head rest successors w,
     start st = head :: rest -> db !! start st = Some successors ->
     successors !! (rand c mod length successors)%nat = Some w ->
     loop_body rand words db chain_length (S fuel) st c
     = (Ret (Locals (rest ++ [w]) (generated st ++ [head])
               (if Py.endswith w NL then current st + 1 else current st)
               (Some w)), S c)) /\
  (forall head rest window successors w,
     start st = head :: rest -> db !! start st = None ->
     random_word rand words chain_length c = (Ret window, S c) ->
     db !! window = Some successors ->
     successors !! (rand (S c) mod length successors)%nat = Some w ->
     loop_body rand words db chain_length (S (S fuel)) st c
     = (Ret (Locals (tail window ++ [w]) (generated st ++ [head])
               (if Py.endswith w NL then current st + 1 else current st)
               (Some w)), S (S c))) /\
  (forall st' c',
     loop_body rand words db chain_length fuel st c = (Ret st', c') ->
     exists head window w successors,
       Py.getitem (start st) 0 = Ret head /\
       lookup_loop rand words db chain_length fuel (start st) c
       = (Ret (window, w), c') /\
       db !! window = Some successors /\ w ∈ successors /\
       generated st' = generated st ++ [head] /\
       start st' = tail window ++ [w] /\
       next_word st' = Some w).
Proof.
  split; [apply random_word_seed|]. split; [apply random_word_short|].
  split; [done|]. split; [|split; [|split; [|split; [|split]]]].
  - intros successors Hkey Hne.
    destruct (lookup_lt_is_Some_2 successors (rand c mod length successors)%nat)
      as [w Hw].
    { apply Nat.mod_upper_bound. by destruct successors. }
    exists w. split; [done|]. by eapply lookup_loop_found.
  - intros successors i w Hkey Hw Hi. eapply lookup_loop_found; [done|].
    rewrite Hi, Nat.mod_small; [done|]. by eapply lookup_lt_Some.
  - apply lookup_loop_empty_list.
  - apply lookup_loop_missing.
  - done.
  - split; [apply loop_body_empty_window|]. split; [apply loop_body_unfold|].
    split; [intros head rest successors w; apply loop_body_found|].
    split; [apply loop_body_restart|].
    intros st' c' Hbody.
    apply loop_body_result in Hbody as (head & window & w & Hhead & Hloop & ->).
    destruct (lookup_loop_result _ _ _ _ _ _ _ _ _ _ Hloop) as (successors & Hkey & Hw).
    by exists head, window, w, successors.
Qed.

(** C7 on the example corpus: the window [("dog", "ran\n")] is a dead end;
    the step appends "dog", draws the window [("the", "cat")], finds
    "sat\n" and leaves the window [("cat", "sat\n")], with two draws. *)
Lemma C7_generation_step_witness :
  loop_body (fun _ => 0%nat) ex_words ex_db 3 2
    (Locals ["dog"; "ran" +:+ NL] ["the"] 1 (Some ("ran" +:+ NL))) 0%nat
  = (Ret (Locals ["cat"; "sat" +:+ NL] ["the"; "dog"] 2 (Some ("sat" +:+ NL))), 2%nat).
Proof.
  destruct (C7_generation_step (fun _ => 0%nat) ex_words ex_db 3 1 0
              (Locals ["dog"; "ran" +:+ NL] ["the"] 1 (Some ("ran" +:+ NL))) 0%nat)
    as (_ & _ & _ & _ & _ & _ & _ & _ & _ & _ & _ & Hrestart & _).
  apply (Hrestart "dog" ["ran" +:+ NL] ["the"; "cat"] ["sat" +:+ NL] ("sat" +:+ NL));
    vm_compute; reflexivity.
Defined.


(** ** The example corpus *)

Lemma ex_db_built : create_database ex_words 3 = Ret ex_db.
Proof. vm_compute. reflexivity. Qed.

Lemma ex_db_the_cat : ex_db !! ["the"; "cat"] = Some ["sat" +:+ NL].
Proof. vm_compute. reflexivity. Qed.

(** A turn that meets a dead end: the window [("dog", "ran\n")] is no key, a
    new window is drawn, and only the head of the old one has been
    appended. *)
Example dead_end_turn :
  loop_body (fun _ => 0%nat) ex_words ex_db 3 2
    (Locals ["dog"; "ran" +:+ NL] ["the"] 1 (Some ("ran" +:+ NL))) 0%nat
  = (Ret (Locals ["cat"; "sat" +:+ NL] ["the"; "dog"] 2 (Some ("sat" +:+ NL))), 2%nat).
Proof. vm_compute. reflexivity. Qed.

(** C1: the number of marker-ending tokens of the output is not the
    requested number of lines. On the example corpus with order 3, a run for
    one line that starts at the window [("cat", "sat\n")] returns two such
    tokens, and a run for two lines that starts at [("the", "dog")] and
    restarts at [("the", "cat")] returns one. *)
Theorem C1_line_count_not_kept :
  create_database ex_words 3 = Ret ex_db /\
  do_markov (fun _ => 1%nat) ex_words ex_db 3 1 4 0%nat
  = (Ret (Py.join " " ["cat"; "sat" +:+ NL; "the"; "ran" +:+ NL]), 4%nat) /\
  marker_count ["cat"; "sat" +:+ NL; "the"; "ran" +:+ NL] = 2%nat /\
  do_markov (fun i => match i with O => 3%nat | _ => 0%nat end) ex_words ex_db 3 2 4 0%nat
  = (Ret (Py.join " " ["the"; "dog"; "sat" +:+ NL]), 4%nat) /\
  marker_count ["the"; "dog"; "sat" +:+ NL] = 1%nat.
Proof. repeat split; vm_compute; reflexivity. Qed.

(** C2: on the corpus ["the cat sat\n", "the dog ran\n"] with order 3 the
    tokens and the database are the listed ones, and generation of one line
    from the window [("the", "cat")] returns "the sat\n" whatever the random
    source: the word "cat" is not in the output. *)
Theorem C2_example_run (rand : nat -> nat) (fuel c : nat) :
  read_file ex_lines = Ret ex_words /\
  create_database ex_words 3 = Ret ex_db /\
  (st ← main_loop rand ex_words ex_db 3 1 (S (S fuel))
          (Locals ["the"; "cat"] [] 0 None);
   finish st) c
  = (Ret ("the sat" +:+ NL), S c) /\
  do_markov (fun _ => 0%nat) ex_words ex_db 3 1 2 0%nat
  = (Ret ("the sat" +:+ NL), 2%nat).
Proof.
  split; [by vm_compute|]. split; [apply ex_db_built|]. split; [|by vm_compute].
  unfold mbind, rnd_bind. rewrite main_loop_turn by (simpl; lia).
  unfold mbind, rnd_bind.
  rewrite (loop_body_found rand ex_words ex_db 3 fuel _ c
             "the" ["cat"] ["sat" +:+ NL] ("sat" +:+ NL));
    [|done|apply ex_db_the_cat|by cbn [length]; rewrite Nat.mod_1_r].
  rewrite main_loop_done by (simpl; lia). done.
Qed.

(** ** Degenerate inputs *)

(** C4: with no line requested the loop body is not run: the state is the
    initial one and the only draw is that of the start window. No word has
    been looked up, so the statement after the loop finds [next_word]
    unbound: [do_markov] raises [UnboundLocalError] and returns no string. *)
Theorem C4_zero_lines_unbound (rand : nat -> nat) (words : list string)
    (db : gmap (list string) (list string)) (chain_length : Z) (fuel c : nat) :
  chain_length <= Py.len words ->
  (exists start0,
     random_word rand words chain_length c = (Ret start0, S c) /\
     main_loop rand words db chain_length 0 fuel (Locals start0 [] 0 None) (S c)
     = (Ret (Locals start0 [] 0 None), S c)) /\
  do_markov rand words db chain_length 0 fuel c = (Raise UnboundLocalError, S c).
Proof.
  intros Hlen.
  destruct (random_word_inside rand words chain_length c Hlen) as (seed & _ & Hstart).
  split.
  - eexists. split; [exact Hstart|]. by apply main_loop_done.
  - unfold do_markov, mbind, rnd_bind. rewrite Hstart.
    by rewrite main_loop_done.
Qed.

Lemma C4_zero_lines_unbound_witness :
  (exists start0,
     random_word (fun _ => 0%nat) ex_words 3 0%nat = (Ret start0, 1%nat) /\
     main_loop (fun _ => 0%nat) ex_words ex_db 3 0 5 (Locals start0 [] 0 None) 1%nat
     = (Ret (Locals start0 [] 0 None), 1%nat)) /\
  do_markov (fun _ => 0%nat) ex_words ex_db 3 0 5 0%nat = (Raise UnboundLocalError, 1%nat).
Proof.
  apply (C4_zero_lines_unbound (fun _ => 0%nat) ex_words ex_db 3 5 0).
  unfold Py.len. simpl. lia.
Defined.

(** C5, as the code has it: with fewer tokens than the order,
    [create_database] does not fail and returns the empty mapping, and
    [do_markov], whatever database it is given, stops at its first
    statement, where [random.randint] is given an empty range and raises
    [ValueError], before any draw and any lookup. *)
Theorem C5_short_corpus (rand : nat -> nat) (words : list string)
    (db : gmap (list string) (list string)) (chain_length size : Z) (fuel c : nat) :
  Py.len words < chain_length ->
  create_database words chain_length = Ret ∅ /\
  do_markov rand words db chain_length size fuel c = (Raise ValueError, c).
Proof.
  intros Hlen. split; [by apply create_database_short|].
  unfold do_markov, mbind, rnd_bind. by rewrite random_word_short.
Qed.

Lemma C5_short_corpus_witness :
  create_database ["the"; "cat"] 3 = Ret ∅ /\
  do_markov (fun _ => 0%nat) ["the"; "cat"] ∅ 3 13 5 0%nat = (Raise ValueError, 0%nat).
Proof.
  apply (C5_short_corpus (fun _ => 0%nat) ["the"; "cat"] ∅ 3 13 5 0).
  unfold Py.len. simpl. lia.
Defined.

(** C5 as the specification words it fails on the two tokens
    ["the", "cat"] with order 3: building the model raises nothing and gives
    the empty model, and generation raises [ValueError]. *)
Lemma C5_short_corpus_builds_model :
  create_database ["the"; "cat"] 3 = Ret ∅ /\
  (do_markov (fun _ => 0%nat) ["the"; "cat"] ∅ 3 13 5 0%nat).1 = Raise ValueError.
Proof. split; vm_compute; reflexivity. Qed.

(** On the empty model [db_stats] divides by zero. *)
Lemma db_stats_empty : db_stats ∅ = Raise ZeroDivisionError.
Proof. reflexivity. Qed.

(** ** [db_stats] *)

Lemma ab_db_built : create_database ab_words 2 = Ret ab_db.
Proof. vm_compute. reflexivity. Qed.

(** The last line printed is the root of the sum of squares as it stands. *)
Lemma db_stats_root (db : gmap (list string) (list string)) (s : stats) :
  db_stats db = Ret s -> std_deviation s = PrimFloat.sqrt (sum_squares s).
Proof.
  unfold db_stats. destruct (foldl _ _ _) as [[lo hi] total].
  destruct (_ =? _); [done|]. by intros [= <-].
Qed.

(** C3: the value printed as standard deviation is the square root of the
    undivided sum of squared deviations. For the database of
    ["a", "b", "a", "c"] with order 2 (branching factors 2 and 1) the sum is
    0.5, the value printed is the root of 0.5, and the root of 0.5 / 2 is
    0.5. *)
Theorem C3_std_deviation_undivided :
  create_database ab_words 2 = Ret ab_db /\
  exists s, db_stats ab_db = Ret s /\
            num_keys s = 2 /\
            sum_squares s = 0.5%float /\
            std_deviation s = PrimFloat.sqrt 0.5 /\
            PrimFloat.sqrt (sum_squares s / Py.float_of (num_keys s)) = 0.5%float /\
            PrimFloat.eqb (std_deviation s)
              (PrimFloat.sqrt (sum_squares s / Py.float_of (num_keys s))) = false.
Proof.
  split; [apply ab_db_built|].
  eexists. split; [vm_compute; reflexivity|].
  repeat split; vm_compute; reflexivity.
Qed.

(** * Further properties of the code *)

(** ** [read_file] *)

Lemma tokenizer_spec_app (l1 l2 : list string) :
  tokenizer_spec (l1 ++ l2) = tokenizer_spec l1 ++ tokenizer_spec l2.
Proof. unfold tokenizer_spec. by rewrite filter_app, fmap_app, concat_app. Qed.

(** X1: [read_file] raises [IOError] when the file cannot be opened, and
    nothing on a file that can: it then returns, and it reads line by line:
    the tokens of a file whose lines are those of a first file followed by
    those of a second are the tokens of the first followed by the tokens of
    the second. *)
Theorem X1_read_file_app (fs : gmap string (list string)) (filename : string) :
  (fs !! filename = None -> read_file_at fs filename = Raise IOError) /\
  (forall lines,
     fs !! filename = Some lines ->
     exists tokens, read_file_at fs filename = Ret tokens) /\
  (forall f1 f2 l1 l2,
     fs !! f1 = Some l1 -> fs !! f2 = Some l2 ->
     fs !! filename = Some (l1 ++ l2) ->
     exists a b, read_file_at fs f1 = Ret a /\ read_file_at fs f2 = Ret b /\
                 read_file_at fs filename = Ret (a ++ b)).
Proof.
  unfold read_file_at. split; [by intros ->|]. split.
  - intros lines ->. exists (tokenizer_spec lines). apply read_file_spec.
  - intros f1 f2 l1 l2 -> -> ->.
    exists (tokenizer_spec l1), (tokenizer_spec l2).
    rewrite !read_file_spec. by rewrite tokenizer_spec_app.
Qed.

Lemma line_tokens_shape (line : string) :
  qualifies line ->
  Forall (fun t => is_word t \/ exists w, is_word w /\ t = w +:+ NL) (line_tokens line) /\
  (2 <= length (line_tokens line))%nat.
Proof.
  intros Hq. unfold qualifies in Hq. unfold line_tokens.
  pose proof (split_words line) as Hws.
  assert (Py.split line <> []) as Hne by (intros E; rewrite E in Hq; simpl in Hq; lia).
  pose proof (snoc_view (Py.split line) "" Hne) as Hview.
  set (front := take _ _) in *. set (w := List.last _ _) in *.
  rewrite Hview in Hws. apply Forall_app in Hws as [Hfront Hw].
  apply Forall_inv in Hw. split.
  - apply Forall_app. split.
    + eapply Forall_impl; [exact Hfront|]. intros t Ht. left. exact Ht.
    + apply Forall_singleton. right. exists w. split; [exact Hw|done].
  - rewrite length_app. simpl. subst front. rewrite length_take. lia.
Qed.

(** X2: the tokens [read_file] returns are never empty and hold no
    whitespace other than the marker at their end: each is a word, or a word
    followed by the marker; and there are at least two tokens for every
    marker-ending one. *)
Theorem X2_read_file_token_shape (lines : list string) :
  exists tokens,
    read_file lines = Ret tokens /\
    Forall (fun t => is_word t \/ exists w, is_word w /\ t = w +:+ NL) tokens /\
    (2 * marker_count tokens <= length tokens)%nat.
Proof.
  exists (tokenizer_spec lines). split; [apply read_file_spec|].
  unfold tokenizer_spec.
  assert (Forall qualifies (filter qualifies lines)) as Hq
    by (apply Forall_forall; intros l Hl; by apply list_elem_of_filter in Hl as [? _]).
  induction Hq as [|line ls Hline _ [IH1 IH2]]; [by split; [constructor|]|].
  destruct (line_tokens_shape line Hline) as [Hshape Hlen].
  rewrite fmap_cons, concat_cons. split.
  - by apply Forall_app.
  - rewrite marker_count_app, line_tokens_count, length_app. lia.
Qed.

(** *** Reading back a line of words *)

Lemma string_app_assoc (a b c : string) : (a +:+ b) +:+ c = a +:+ (b +:+ c).
Proof.
  induction a as [|x a IH]; [done|].
  change (String x ((a +:+ b) +:+ c) = String x (a +:+ (b +:+ c))). by rewrite IH.
Qed.

Lemma string_app_empty_r (a : string) : a +:+ "" = a.
Proof.
  induction a as [|x a IH]; [done|].
  change (String x (a +:+ "") = String x a). by rewrite IH.
Qed.

Lemma string_app_nonempty (a b : string) : b <> "" -> a +:+ b <> "".
Proof. intros Hb. destruct a; [done|]. discriminate. Qed.

(** A run of non-separator bytes goes to the word being read. *)
Lemma split_from_run (w s acc : string) :
  Py.spaceless w = true ->
  Py.split_from acc (w +:+ s) = Py.split_from (acc +:+ w) s.
Proof.
  revert acc. induction w as [|c w IH]; intros acc Hw.
  - by rewrite string_app_empty_r.
  - simpl in Hw. apply andb_true_iff in Hw as [Hc Hw].
    apply negb_true_iff in Hc.
    change (String c w +:+ s) with (String c (w +:+ s)).
    cbn [Py.split_from]. rewrite Hc, IH by done.
    by rewrite string_app_assoc.
Qed.

Lemma split_from_separator (c : ascii) (s acc : string) :
  Py.isspace c = true -> acc <> "" ->
  Py.split_from acc (String c s) = acc :: Py.split_from "" s.
Proof.
  intros Hc Hacc. cbn [Py.split_from]. rewrite Hc.
  by destruct (String.eqb_spec acc "").
Qed.

Lemma split_join_line (ws : list string) :
  Forall is_word ws -> ws <> [] ->
  Py.split (Py.join " " ws +:+ NL) = ws.
Proof.
  unfold Py.split. induction 1 as [|w ws [Hw Hne] Hws IH]; [done|]. intros _.
  destruct ws as [|w' ws].
  - cbn [Py.join]. rewrite split_from_run by done.
    unfold NL. rewrite split_from_separator; [done|done|].
    by apply string_app_nonempty.
  - change (Py.join " " (w :: w' :: ws))
      with (w +:+ String " " (Py.join " " (w' :: ws))).
    rewrite string_app_assoc, split_from_run by done.
    change (String " " (Py.join " " (w' :: ws)) +:+ NL)
      with (String " " (Py.join " " (w' :: ws) +:+ NL)).
    rewrite split_from_separator; [|done|by apply string_app_nonempty].
    f_equal. by apply IH.
Qed.

(** X3: [read_file] reads back what was written line by line: for lines made
    of at least two words each, joined by single spaces and closed by a line
    feed, it returns the words of all the lines in order, the last word of
    each line carrying the marker. *)
Theorem X3_read_file_of_written_lines (wss : list (list string)) :
  Forall (fun ws => Forall is_word ws /\ (2 <= length ws)%nat) wss ->
  read_file ((fun ws => Py.join " " ws +:+ NL) <$> wss)
  = Ret (concat ((fun ws => take (length ws - 1) ws ++ [List.last ws "" +:+ NL])
                   <$> wss)).
Proof.
  intros Hwss. rewrite read_file_spec. f_equal. unfold tokenizer_spec.
  induction Hwss as [|ws wss [Hws Hlen] _ IH]; [done|].
  assert (Py.split (Py.join " " ws +:+ NL) = ws) as Hsplit.
  { apply split_join_line; [done|]. intros ->. simpl in Hlen. lia. }
  rewrite !fmap_cons, filter_cons_True by (unfold qualifies; by rewrite Hsplit).
  rewrite fmap_cons, !concat_cons, IH. f_equal.
  unfold line_tokens. by rewrite Hsplit.
Qed.

Lemma X3_read_file_of_written_lines_witness :
  read_file ((fun ws => Py.join " " ws +:+ NL) <$> [["the"; "cat"; "sat"]; ["the"; "dog"]])
  = Ret (concat ((fun ws => take (length ws - 1) ws ++ [List.last ws "" +:+ NL])
                   <$> [["the"; "cat"; "sat"]; ["the"; "dog"]])).
Proof.
  apply (X3_read_file_of_written_lines [["the"; "cat"; "sat"]; ["the"; "dog"]]).
  repeat constructor; try discriminate; simpl; lia.
Defined.

(** ** [generate_chain] *)

Lemma windows_lookup (words : list string) (k i : nat) (chain : list string) :
  windows k words !! i = Some chain <->
  (i < length words + 1 - k)%nat /\ chain = take k (drop i words).
Proof.
  unfold windows. rewrite list_lookup_fmap_Some. split.
  - intros (j & -> & Hj). apply lookup_seq in Hj as [-> Hi]. done.
  - intros [Hi ->]. exists i. split; [done|]. by rewrite lookup_seq_lt.
Qed.

Lemma slice_to_init {A : Type} (l : list A) :
  l <> [] -> Py.slice_to l (-1) = take (length l - 1) l.
Proof.
  intros Hne. destruct l as [|a l _] using rev_ind; [done|].
  rewrite slice_to_front, length_app. simpl.
  replace (length l + 1 - 1)%nat with (length l) by lia.
  by rewrite take_app_length.
Qed.

Lemma window_overlap {A : Type} (l : list A) (k i : nat) :
  (S i + S k <= length l)%nat ->
  tail (take (S k) (drop i l)) = take k (drop (S i) l).
Proof.
  intros Hlen. destruct (lookup_lt_is_Some_2 l i) as [x Hx]; [lia|].
  by rewrite (drop_S l x i Hx).
Qed.

(** X4: for a chain length between 0 and the number of words,
    [generate_chain] yields one chain for each offset up to
    [len(words) - chain_length]; the chain at offset [i] has [chain_length]
    words, the word at its position [j] being [words[i + j]]; and each chain
    overlaps the next: without its first word it is the next chain without
    its last. *)
Theorem X4_generate_chain_slides (words : list string) (chain_length : Z) :
  0 <= chain_length <= Py.len words ->
  Py.len (generate_chain words chain_length) = Py.len words - chain_length + 1 /\
  (forall (i : nat) chain,
     generate_chain words chain_length !! i = Some chain ->
     Py.len chain = chain_length /\
     forall j : nat, (j < length chain)%nat -> chain !! j = words !! (i + j)%nat) /\
  (forall (i : nat) a b,
     generate_chain words chain_length !! i = Some a ->
     generate_chain words chain_length !! S i = Some b ->
     Py.slice_from a 1 = Py.slice_to b (-1)).
Proof.
  intros Hk. unfold Py.len in *.
  pose proof (generate_chain_windows words (Z.to_nat chain_length)) as Hgc.
  rewrite Z2Nat.id in Hgc by lia. rewrite Hgc by lia. clear Hgc.
  set (k := Z.to_nat chain_length). split; [|split].
  - unfold windows. rewrite length_fmap, length_seq. lia.
  - intros i chain Hchain. apply windows_lookup in Hchain as [Hi ->].
    rewrite length_take, length_drop. split; [lia|].
    intros j Hj. rewrite lookup_take_lt by lia. by rewrite lookup_drop.
  - intros i a b Ha Hb.
    apply windows_lookup in Ha as [Hi ->]. apply windows_lookup in Hb as [Hi' ->].
    rewrite slice_from_tail.
    destruct k as [|k]; [done|].
    rewrite slice_to_init
      by (intros E; apply (f_equal length) in E;
          rewrite length_take, length_drop in E; cbn [length] in E; lia).
    rewrite window_overlap by lia.
    rewrite length_take, length_drop, take_take. f_equal. lia.
Qed.

Lemma X4_generate_chain_slides_witness :
  Py.len (generate_chain ex_words 3) = Py.len ex_words - 3 + 1 /\
  (forall (i : nat) chain,
     generate_chain ex_words 3 !! i = Some chain ->
     Py.len chain = 3 /\
     forall j : nat, (j < length chain)%nat -> chain !! j = ex_words !! (i + j)%nat) /\
  (forall (i : nat) a b,
     generate_chain ex_words 3 !! i = Some a ->
     generate_chain ex_words 3 !! S i = Some b ->
     Py.slice_from a 1 = Py.slice_to b (-1)).
Proof. apply (X4_generate_chain_slides ex_words 3). unfold Py.len. simpl. lia. Defined.

(** ** [create_database] outside its intended orders *)

Lemma add_chain_nil (db : gmap (list string) (list string)) :
  add_chain db [] = Raise IndexError.
Proof. unfold add_chain. by destruct (db !! _). Qed.

(** The loop stops with [IndexError] as soon as a chain is empty. *)
Lemma add_chains_empty_chain (chains : list (list string))
    (db : gmap (list string) (list string)) :
  [] ∈ chains -> for_each add_chain db chains = Raise IndexError.
Proof.
  revert db. induction chains as [|chain chains IH]; intros db Hin.
  - by apply elem_of_nil in Hin.
  - cbn [for_each]. destruct (decide (chain = [])) as [->|Hne].
    + by rewrite add_chain_nil.
    + rewrite (snoc_view chain "" Hne), add_chain_snoc.
      apply IH. apply elem_of_cons in Hin as [Heq|Hin]; [done|exact Hin].
Qed.

(** X5: with a chain length of zero or less [create_database] raises
    [IndexError] on every word list, the empty one included: one of the
    chains is empty and has no last word. *)
Theorem X5_create_database_order_not_positive (words : list string) (chain_length : Z) :
  chain_length <= 0 ->
  create_database words chain_length = Raise IndexError.
Proof.
  intros Hk. unfold create_database. apply add_chains_empty_chain.
  unfold generate_chain. apply list_elem_of_fmap.
  exists (- chain_length). split.
  - unfold Py.slice, Py.clip.
    rewrite (proj2 (Z.ltb_ge (- chain_length) 0)) by lia.
    replace (- chain_length + chain_length) with 0 by lia.
    replace (0 <? 0) with false by done.
    unfold Py.len. by replace (Z.to_nat _) with 0%nat by lia.
  - unfold Py.range. apply list_elem_of_fmap.
    exists (Z.to_nat (- chain_length)). split; [lia|].
    apply elem_of_seq. unfold Py.len. lia.
Qed.

Lemma X5_create_database_order_not_positive_witness :
  create_database ["the"; "cat"] 0 = Raise IndexError.
Proof. apply (X5_create_database_order_not_positive ["the"; "cat"] 0). lia. Defined.

(** ** What [create_database] stores under a key *)

Lemma successors_in_cons (key front : list string) (w : string)
    (chains : list (list string)) :
  successors_in key ((front ++ [w]) :: chains) =
  (if decide (front = key) then [w] else []) ++ successors_in key chains.
Proof.
  unfold successors_in. rewrite fmap_cons, context_successor_snoc, filter_cons.
  simpl. by destruct (decide (front = key)).
Qed.

(** After the loop every key holds what it held, followed by its successors
    in the chains, in their order. *)
Lemma add_chains_lookup (chains : list (list string))
    (db db' : gmap (list string) (list string)) (key : list string) :
  Forall (fun chain => chain <> []) chains ->
  for_each add_chain db chains = Ret db' ->
  default [] (db' !! key) = default [] (db !! key) ++ successors_in key chains.
Proof.
  intros Hchains. revert db.
  induction Hchains as [|chain chains Hne _ IH]; intros db.
  - intros [= ->]. by rewrite app_nil_r.
  - rewrite (snoc_view chain "" Hne). set (front := take _ _). set (w := List.last _ _).
    cbn [for_each]. rewrite add_chain_snoc. intros Hrun.
    rewrite (IH _ Hrun), successors_in_cons, lookup_insert.
    destruct (decide (front = key)) as [->|]; simpl.
    + by rewrite <- app_assoc.
    + done.
Qed.

Lemma create_database_lookup (words : list string) (k : nat) :
  (1 <= k)%nat -> (k <= length words)%nat ->
  exists db, create_database words (Z.of_nat k) = Ret db /\ branching db /\
    forall key, default [] (db !! key) = successors_in key (windows k words).
Proof.
  intros Hk Hlen. unfold create_database. rewrite generate_chain_windows by done.
  assert (Forall (fun chain : list string => chain <> []) (windows k words)) as Hne.
  { eapply Forall_impl; [apply windows_length|]. intros w Hw ->. simpl in Hw. lia. }
  destruct (add_chains (windows k words) ∅ Hne branching_empty) as (db & Hrun & Hbr & _).
  exists db. split; [done|]. split; [done|]. intros key.
  by rewrite (add_chains_lookup _ _ _ key Hne Hrun), lookup_empty.
Qed.

(** X6: for a chain length of at least one and at most the number of words,
    the database [create_database] returns holds under each key exactly the
    words that follow the key in the text, in the order in which they occur,
    and has no entry for a key that nothing follows. *)
Theorem X6_create_database_lookup (words : list string) (chain_length : Z) :
  1 <= chain_length <= Py.len words ->
  exists db, create_database words chain_length = Ret db /\
    forall key,
      db !! key =
      match successors_in key (windows (Z.to_nat chain_length) words) with
      | [] => None
      | successors => Some successors
      end.
Proof.
  intros Hk. unfold Py.len in Hk.
  destruct (create_database_lookup words (Z.to_nat chain_length))
    as (db & Hrun & Hbr & Hlook); [lia|lia|].
  rewrite Z2Nat.id in Hrun by lia. exists db. split; [done|]. intros key.
  rewrite <- Hlook. destruct (db !! key) as [successors|] eqn:Hkey; simpl; [|done].
  apply Hbr in Hkey. by destruct successors; [simpl in Hkey; lia|].
Qed.

Lemma X6_create_database_lookup_witness :
  exists db, create_database ex_words 3 = Ret db /\
    forall key,
      db !! key =
      match successors_in key (windows (Z.to_nat 3) ex_words) with
      | [] => None
      | successors => Some successors
      end.
Proof. apply (X6_create_database_lookup ex_words 3). unfold Py.len. simpl. lia. Defined.

Lemma windows_one (words : list string) :
  windows 1 words = (fun w => [w]) <$> words.
Proof.
  apply list_eq. intros i. rewrite list_lookup_fmap.
  destruct (words !! i) as [w|] eqn:Hw; simpl.
  - apply windows_lookup. split; [apply lookup_lt_Some in Hw; lia|].
    by rewrite (drop_S words w i Hw).
  - destruct (windows 1 words !! i) as [chain|] eqn:Hchain; [|done].
    apply windows_lookup in Hchain as [Hi _]. apply lookup_ge_None in Hw. lia.
Qed.

Lemma successors_in_singletons (key : list string) (words : list string) :
  successors_in key ((fun w => [w]) <$> words) = if decide (key = []) then words else [].
Proof.
  induction words as [|w words IH]; [by destruct (decide _)|].
  rewrite fmap_cons. change [w] with ([] ++ [w]).
  rewrite successors_in_cons, IH.
  destruct (decide (key = [])) as [->|Hne]; [done|].
  by destruct (decide ([] = key)).
Qed.

(** X7: with a chain length of one the database has a single key, the empty
    tuple, and under it every word of the text, in order. *)
Theorem X7_create_database_order_one (words : list string) :
  words <> [] ->
  create_database words 1 = Ret {[ [] := words ]}.
Proof.
  intros Hne.
  destruct (create_database_lookup words 1) as (db & Hrun & Hbr & Hlook); [lia| |].
  { destruct words; [done|simpl; lia]. }
  change (Z.of_nat 1) with 1 in Hrun. rewrite Hrun. f_equal. apply map_eq. intros key.
  specialize (Hlook key). rewrite windows_one, successors_in_singletons in Hlook.
  destruct (decide (key = [])) as [->|Hkey].
  - rewrite lookup_singleton_eq. destruct (db !! []); simpl in Hlook; by subst.
  - rewrite lookup_singleton_ne by done.
    destruct (db !! key) as [l|] eqn:Hl; [|done].
    apply Hbr in Hl. simpl in Hlook. subst l. simpl in Hl. lia.
Qed.

Lemma X7_create_database_order_one_witness :
  create_database ["the"; "cat"] 1 = Ret {[ [] := ["the"; "cat"] ]}.
Proof. by apply (X7_create_database_order_one ["the"; "cat"]). Defined.

(** ** [db_stats] *)

(** The first loop of [db_stats], from any starting values. *)
Lemma count_options_fold (entries : list (list string * list string)) (lo hi n : Z) :
  exists lo' hi',
    foldl count_options (lo, hi, n) entries
    = (lo', hi', n + Z.of_nat (length (entries ≫= snd))) /\
    lo' <= lo /\ hi <= hi' /\
    Forall (fun e => lo' <= Py.len e.2 <= hi') entries /\
    (lo' = lo \/ exists e, e ∈ entries /\ lo' = Py.len e.2) /\
    (hi' = hi \/ exists e, e ∈ entries /\ hi' = Py.len e.2).
Proof.
  revert lo hi n. induction entries as [|e entries IH]; intros lo hi n.
  - exists lo, hi. simpl. rewrite Z.add_0_r. repeat split; try lia; auto.
  - cbn [foldl]. unfold count_options at 2.
    set (len := Py.len e.2).
    set (hi1 := if hi <? len then len else hi).
    set (lo1 := if len <? lo then len else lo).
    destruct (IH lo1 hi1 (n + len)) as (lo' & hi' & Hrun & Hlo & Hhi & Hall & Hlo' & Hhi').
    assert (lo1 <= lo /\ lo1 <= len /\ (lo1 = lo \/ lo1 = len)) as (? & ? & Hlo1)
      by (subst lo1; destruct (Z.ltb_spec len lo); lia).
    assert (hi <= hi1 /\ len <= hi1 /\ (hi1 = hi \/ hi1 = len)) as (? & ? & Hhi1)
      by (subst hi1; destruct (Z.ltb_spec hi len); lia).
    exists lo', hi'. rewrite Hrun. split.
    { f_equal. rewrite bind_cons, length_app. unfold len, Py.len. lia. }
    split; [lia|]. split; [lia|]. split.
    { constructor; [fold len; lia|done]. }
    split.
    + destruct Hlo' as [->|(e' & He' & ->)].
      * destruct Hlo1 as [->| ->]; [by left|]. right. exists e. split; [left|done].
      * right. exists e'. split; [by right|done].
    + destruct Hhi' as [->|(e' & He' & ->)].
      * destruct Hhi1 as [->| ->]; [by left|]. right. exists e. split; [left|done].
      * right. exists e'. split; [by right|done].
Qed.

(** X8: [db_stats] raises [ZeroDivisionError] on the empty database and on
    no other; on any other database it returns, and the number of keys it
    reports is the number of keys of the database. *)
Theorem X8_db_stats_empty_only (db : gmap (list string) (list string)) :
  (db = ∅ /\ db_stats db = Raise ZeroDivisionError) \/
  (db <> ∅ /\ exists s, db_stats db = Ret s /\ num_keys s = Z.of_nat (size db)).
Proof.
  destruct (decide (db = ∅)) as [->|Hne]; [by left|]. right. split; [done|].
  unfold db_stats. destruct (foldl _ _ _) as [[lo hi] total].
  apply map_size_non_empty_iff in Hne.
  rewrite (proj2 (Z.eqb_neq _ 0)) by lia. by eexists.
Qed.

(** X9: when [db_stats] returns, the minimum and maximum it reports bound
    the length of every successor list, the maximum is the length of one of
    them, and the minimum is the length of one of them or has stayed at
    [sys.maxint]. *)
Theorem X9_db_stats_extrema (db : gmap (list string) (list string)) (s : stats) :
  db_stats db = Ret s ->
  (forall key successors,
     db !! key = Some successors ->
     min_len s <= Py.len successors <= max_len s) /\
  (exists key successors, db !! key = Some successors /\ max_len s = Py.len successors) /\
  (min_len s = Py.maxint \/
   exists key successors, db !! key = Some successors /\ min_len s = Py.len successors).
Proof.
  unfold db_stats.
  destruct (count_options_fold (map_to_list db) Py.maxint 0 0)
    as (lo & hi & Hrun & _ & Hhi0 & Hall & Hlo & Hhi).
  rewrite Hrun. destruct (Z.eqb_spec (Z.of_nat (size db)) 0) as [|Hsize]; [done|].
  intros [= <-]. simpl. split; [|split].
  - intros key successors Hkey. apply elem_of_map_to_list in Hkey.
    eapply Forall_forall in Hall; [|exact Hkey]. exact Hall.
  - destruct Hhi as [->|((key & successors) & He & ->)].
    + assert (db <> ∅) as Hne by (intros ->; by rewrite map_size_empty in Hsize).
      apply map_choose in Hne as (key & successors & Hkey).
      exists key, successors. split; [done|].
      apply elem_of_map_to_list in Hkey.
      eapply Forall_forall in Hall; [|exact Hkey]. simpl in Hall. unfold Py.len in *. lia.
    + exists key, successors. split; [by apply elem_of_map_to_list|done].
  - destruct Hlo as [->|((key & successors) & He & ->)]; [by left|]. right.
    exists key, successors. split; [by apply elem_of_map_to_list|done].
Qed.

Lemma X9_db_stats_extrema_witness :
  (forall key successors,
     ab_db !! key = Some successors ->
     min_len (Stats 2 1.5 1 2 0.5 (PrimFloat.sqrt 0.5)) <= Py.len successors
     <= max_len (Stats 2 1.5 1 2 0.5 (PrimFloat.sqrt 0.5))) /\
  (exists key successors,
     ab_db !! key = Some successors /\
     max_len (Stats 2 1.5 1 2 0.5 (PrimFloat.sqrt 0.5)) = Py.len successors) /\
  (min_len (Stats 2 1.5 1 2 0.5 (PrimFloat.sqrt 0.5)) = Py.maxint \/
   exists key successors,
     ab_db !! key = Some successors /\
     min_len (Stats 2 1.5 1 2 0.5 (PrimFloat.sqrt 0.5)) = Py.len successors).
Proof.
  apply (X9_db_stats_extrema ab_db (Stats 2 1.5 1 2 0.5 (PrimFloat.sqrt 0.5))).
  vm_compute. reflexivity.
Defined.

(** ** [db_stats] on a database made by [create_database] *)

Lemma db_pairs_length (db : gmap (list string) (list string)) :
  length (db_pairs db) = length (map_to_list db ≫= snd).
Proof.
  unfold db_pairs. induction (map_to_list db) as [|e entries IH]; [done|].
  by rewrite !bind_cons, !length_app, length_fmap, IH.
Qed.

Lemma entries_at_least_keys (entries : list (list string * list string)) :
  Forall (fun e => (1 <= length e.2)%nat) entries ->
  (length entries <= length (entries ≫= snd))%nat.
Proof.
  induction 1 as [|e entries He _ IH]; [done|].
  rewrite bind_cons, length_app. simpl. lia.
Qed.

Lemma entry_at_most_total (entries : list (list string * list string))
    (e : list string * list string) :
  e ∈ entries -> (length e.2 <= length (entries ≫= snd))%nat.
Proof.
  induction 1 as [e entries|e e' entries _ IH];
    rewrite bind_cons, length_app; lia.
Qed.

Lemma create_database_total (words : list string) (k : nat) :
  (1 <= k)%nat -> (k <= length words)%nat ->
  exists db, create_database words (Z.of_nat k) = Ret db /\ branching db /\
             length (map_to_list db ≫= snd) = (length words + 1 - k)%nat.
Proof.
  intros Hk Hlen. unfold create_database. rewrite generate_chain_windows by done.
  assert (Forall (fun chain : list string => chain <> []) (windows k words)) as Hne.
  { eapply Forall_impl; [apply windows_length|]. intros w Hw ->. simpl in Hw. lia. }
  destruct (add_chains (windows k words) ∅ Hne branching_empty) as (db & Hrun & Hbr & Hperm).
  exists db. split; [done|]. split; [done|].
  rewrite <- db_pairs_length, Hperm. unfold db_pairs at 1.
  rewrite map_to_list_empty. simpl.
  unfold windows. by rewrite !length_fmap, length_seq.
Qed.

(** X10: the statistics of a database built from a text: for a chain length
    of at least one and at most the number of words, [db_stats] returns on
    the database of [create_database]; with [n = len(words) - chain_length
    + 1] the number of chains, it reports between 1 and [n] keys, a minimum
    of at least 1, a maximum of at most [n], and as mean the quotient of
    [float(n)] by the float of the number of keys. *)
Theorem X10_db_stats_of_built_database (words : list string) (chain_length : Z) :
  1 <= chain_length <= Py.len words ->
  exists db s,
    create_database words chain_length = Ret db /\
    db_stats db = Ret s /\
    1 <= num_keys s <= Py.len words - chain_length + 1 /\
    1 <= min_len s /\ min_len s <= max_len s /\
    max_len s <= Py.len words - chain_length + 1 /\
    avg_options s
    = (Py.float_of (Py.len words - chain_length + 1) / Py.float_of (num_keys s))%float.
Proof.
  intros Hk. unfold Py.len in *.
  destruct (create_database_total words (Z.to_nat chain_length))
    as (db & Hrun & Hbr & Htotal); [lia|lia|].
  rewrite Z2Nat.id in Hrun by lia.
  assert (Forall (fun e : list string * list string => (1 <= length e.2)%nat)
            (map_to_list db)) as Hall1.
  { apply Forall_forall. intros [key l] He. apply elem_of_map_to_list in He.
    by apply Hbr in He. }
  pose proof (entries_at_least_keys _ Hall1) as Hkeys.
  pose proof (length_map_to_list db) as Hlen.
  assert (size db <> 0)%nat as Hsize.
  { rewrite <- Hlen. intros E.
    destruct (map_to_list db) eqn:El; [simpl in Htotal; lia|done]. }
  destruct (count_options_fold (map_to_list db) Py.maxint 0 0)
    as (lo & hi & Hfold & _ & _ & Hall & Hlo & Hhi).
  exists db. eexists. split; [exact Hrun|].
  unfold db_stats. rewrite Hfold, (proj2 (Z.eqb_neq _ 0)) by lia.
  split; [reflexivity|]. cbn [num_keys min_len max_len avg_options].
  rewrite <- Hlen in *.
  assert (exists e, e ∈ map_to_list db) as [e0 He0]
    by (destruct (map_to_list db) as [|e ?]; [done|exists e; left]).
  pose proof He0 as Hb0. eapply Forall_forall in Hb0; [|exact Hall].
  pose proof He0 as H10. eapply Forall_forall in H10; [|exact Hall1].
  unfold Py.len in *. simpl in Hb0.
  split; [lia|]. split.
  { destruct Hlo as [->|(e & He & ->)]; [by vm_compute|].
    eapply Forall_forall in Hall1; [|exact He]. simpl in Hall1. lia. }
  split; [lia|]. split.
  { destruct Hhi as [->|(e & He & ->)]; [lia|].
    apply entry_at_most_total in He. lia. }
  f_equal. f_equal. lia.
Qed.

Lemma X10_db_stats_of_built_database_witness :
  exists db s,
    create_database ab_words 2 = Ret db /\
    db_stats db = Ret s /\
    1 <= num_keys s <= Py.len ab_words - 2 + 1 /\
    1 <= min_len s /\ min_len s <= max_len s /\
    max_len s <= Py.len ab_words - 2 + 1 /\
    avg_options s
    = (Py.float_of (Py.len ab_words - 2 + 1) / Py.float_of (num_keys s))%float.
Proof. apply (X10_db_stats_of_built_database ab_words 2). unfold Py.len. simpl. lia. Defined.

(** ** The database as [do_markov] uses it *)

Lemma successors_in_elem (key : list string) (chains : list (list string)) (w : string) :
  w ∈ successors_in key chains <->
  exists chain, chain ∈ chains /\ context_successor chain = (key, w).
Proof.
  unfold successors_in. rewrite list_elem_of_fmap. split.
  - intros ([key' w'] & -> & Hin). apply list_elem_of_filter in Hin as [Hkey Hin].
    apply list_elem_of_fmap in Hin as (chain & Heq & Hchain).
    simpl in Hkey. subst key'. by exists chain.
  - intros (chain & Hchain & Heq). exists (key, w). split; [done|].
    apply list_elem_of_filter. split; [done|].
    apply list_elem_of_fmap. by exists chain.
Qed.

Lemma window_elem (words : list string) (k : nat) (chain : list string) :
  chain ∈ windows k words <->
  exists i, (i + k <= length words)%nat /\ chain = take k (drop i words).
Proof.
  rewrite list_elem_of_lookup. split.
  - intros (i & Hi). apply windows_lookup in Hi as [Hi ->]. exists i. split; [lia|done].
  - intros (i & Hi & ->). exists i. apply windows_lookup. split; [lia|done].
Qed.

Lemma last_elem (chain : list string) : chain <> [] -> List.last chain "" ∈ chain.
Proof.
  intros Hne. rewrite (snoc_view chain "" Hne) at 2.
  apply elem_of_app. right. left.
Qed.

(** What [do_markov] needs of the database: the window at every seed is a
    key, every key has [k - 1] words, no list is empty and every successor is
    a word of the text. *)
Lemma create_database_walkable (words : list string) (k : nat)
    (db : gmap (list string) (list string)) :
  (2 <= k)%nat -> (k <= length words)%nat ->
  create_database words (Z.of_nat k) = Ret db ->
  branching db /\
  (forall i, (i + k <= length words)%nat ->
     is_Some (db !! take (k - 1) (drop i words))) /\
  (forall key successors,
     db !! key = Some successors ->
     length key = (k - 1)%nat /\ Forall (fun w => w ∈ words) key /\
     Forall (fun w => w ∈ words) successors).
Proof.
  intros Hk Hlen Hrun.
  destruct (create_database_lookup words k) as (db' & Hrun' & Hbr & Hlook); [lia|lia|].
  rewrite Hrun in Hrun'. injection Hrun' as <-.
  split; [done|]. split.
  - intros i Hi. set (key := take (k - 1) (drop i words)).
    assert (List.last (take k (drop i words)) "" ∈ successors_in key (windows k words))
      as Hin.
    { apply successors_in_elem. exists (take k (drop i words)). split.
      - apply window_elem. by exists i.
      - unfold context_successor. f_equal.
        rewrite length_take, length_drop, take_take. unfold key. f_equal. lia. }
    rewrite <- Hlook in Hin. destruct (db !! key); [done|].
    by apply elem_of_nil in Hin.
  - intros key successors Hkey. specialize (Hlook key). rewrite Hkey in Hlook.
    simpl in Hlook.
    assert (forall w, w ∈ successors ->
              length key = (k - 1)%nat /\ Forall (fun w => w ∈ words) key /\
              w ∈ words) as Hall.
    { intros w Hw. rewrite Hlook in Hw.
      apply successors_in_elem in Hw as (chain & Hchain & Heq).
      apply window_elem in Hchain as (i & Hi & ->).
      unfold context_successor in Heq. injection Heq as <- <-. split; [|split].
      - rewrite !length_take, length_drop. lia.
      - apply Forall_forall. intros x Hx.
        apply subseteq_take in Hx.
        by apply (subseteq_drop i words), (subseteq_take k).
      - assert (take k (drop i words) <> []) as Hne.
        { intros E. apply (f_equal length) in E.
          rewrite length_take, length_drop in E. cbn [length] in E. lia. }
        apply last_elem in Hne.
        by apply (subseteq_drop i words), (subseteq_take k). }
    apply Hbr in Hkey. destruct successors as [|w0 ?]; [simpl in Hkey; lia|].
    destruct (Hall w0) as (Hlenkey & Hkeywords & _); [left|].
    split; [done|]. split; [done|].
    apply Forall_forall. intros w Hw. by apply Hall.
Qed.

(** ** [do_markov] on a database built from its words *)

Lemma choice_member {A : Type} (rand : nat -> nat) (seq : list A) (c : nat) :
  seq <> [] -> exists x, choice rand seq c = (Ret x, S c) /\ x ∈ seq.
Proof.
  intros Hne.
  destruct (lookup_lt_is_Some_2 seq (rand c mod length seq)%nat) as [x Hx].
  { apply Nat.mod_upper_bound. by destruct seq. }
  exists x. split; [by apply choice_position|]. by eapply list_elem_of_lookup_2.
Qed.

Section Walk.
Variable rand : nat -> nat.
Variable words : list string.
Variable db : gmap (list string) (list string).
Variable k : nat.
Hypothesis Hk : (2 <= k)%nat.
Hypothesis Hlen : (k <= length words)%nat.
Hypothesis Hbuilt : create_database words (Z.of_nat k) = Ret db.

(** The window drawn at a random seed is a key. *)
Lemma random_word_key (c : nat) :
  exists window successors,
    random_word rand words (Z.of_nat k) c = (Ret window, S c) /\
    db !! window = Some successors /\
    length window = (k - 1)%nat /\
    Forall (fun w => w ∈ words) window.
Proof.
  destruct (create_database_walkable words k db Hk Hlen Hbuilt) as (_ & Hseed & Hkeys).
  destruct (random_word_inside rand words (Z.of_nat k) c)
    as (seed & Hrange & Hrun); [unfold Py.len; lia|].
  unfold Py.len in Hrange.
  replace seed with (Z.of_nat (Z.to_nat seed)) in Hrun by lia.
  replace (Z.of_nat (Z.to_nat seed) + Z.of_nat k - 1)
    with (Z.of_nat (Z.to_nat seed) + Z.of_nat (k - 1)) in Hrun by lia.
  rewrite slice_inside in Hrun by lia.
  destruct (Hseed (Z.to_nat seed)) as [successors Hkey]; [lia|].
  destruct (Hkeys _ _ Hkey) as (Hl & Hw & _).
  by exists (take (k - 1) (drop (Z.to_nat seed) words)), successors.
Qed.

(** The [while True] loop never raises: it runs out of fuel, or ends on a key
    and a member of its list. *)
Lemma lookup_loop_safe (fuel : nat) (start : list string) (c : nat) :
  (exists c', lookup_loop rand words db (Z.of_nat k) fuel start c = (Timeout, c')) \/
  (exists window w successors c',
     lookup_loop rand words db (Z.of_nat k) fuel start c = (Ret (window, w), c') /\
     db !! window = Some successors /\ w ∈ successors).
Proof.
  destruct (create_database_walkable words k db Hk Hlen Hbuilt) as (Hbr & _ & _).
  revert start c. induction fuel as [|fuel IH]; intros start c; [left; by eexists|].
  cbn [lookup_loop]. destruct (db !! start) as [successors|] eqn:Hkey.
  - right. destruct (choice_member rand successors c) as (w & Hw & Hin).
    { apply Hbr in Hkey. intros ->. simpl in Hkey. lia. }
    exists start, w, successors, (S c). unfold mbind, rnd_bind. by rewrite Hw.
  - destruct (random_word_key c) as (window & successors & Hrun & _).
    unfold mbind, rnd_bind. rewrite Hrun. apply IH.
Qed.

(** With fuel for two lookups the loop returns: at once when the window is a
    key, after one new window when it is not. *)
Lemma lookup_loop_total (fuel : nat) (start : list string) (c : nat) :
  exists window w successors c',
    lookup_loop rand words db (Z.of_nat k) (S (S fuel)) start c = (Ret (window, w), c') /\
    db !! window = Some successors /\ w ∈ successors /\
    ((is_Some (db !! start) /\ window = start /\ c' = S c) \/
     (db !! start = None /\ c' = S (S c))).
Proof.
  destruct (create_database_walkable words k db Hk Hlen Hbuilt) as (Hbr & _ & _).
  assert (forall l, is_Some (db !! l) -> forall f c0,
            exists w successors,
              lookup_loop rand words db (Z.of_nat k) (S f) l c0 = (Ret (l, w), S c0) /\
              db !! l = Some successors /\ w ∈ successors) as Hhit.
  { intros l [successors Hkey] f c0.
    destruct (choice_member rand successors c0) as (w & Hw & Hin).
    { apply Hbr in Hkey. intros ->. simpl in Hkey. lia. }
    exists w, successors. cbn [lookup_loop]. rewrite Hkey.
    unfold mbind, rnd_bind. by rewrite Hw. }
  destruct (db !! start) as [successors|] eqn:Hkey.
  - destruct (Hhit start) with (f := S fuel) (c0 := c) as (w & l & Hrun & Hl & Hw).
    { by rewrite Hkey. }
    exists start, w, l, (S c). repeat split; try done. left. by split.
  - destruct (random_word_key c) as (window & l & Hrun & Hl & _).
    destruct (Hhit window) with (f := fuel) (c0 := S c) as (w & l' & Hrun' & Hl' & Hw).
    { by rewrite Hl. }
    exists window, w, l', (S (S c)). split.
    + rewrite lookup_loop_missing by done. unfold mbind, rnd_bind. by rewrite Hrun.
    + repeat split; try done. by right.
Qed.

(** A turn of the outer loop never raises and keeps the invariant. *)
Lemma loop_body_safe (fuel : nat) (st : locals) (c : nat) :
  walking words k st ->
  (exists c', loop_body rand words db (Z.of_nat k) fuel st c = (Timeout, c')) \/
  (exists head w window c',
     loop_body rand words db (Z.of_nat k) fuel st c =
     (Ret (Locals (tail window ++ [w]) (generated st ++ [head])
             (if Py.endswith w NL then current st + 1 else current st)
             (Some w)), c') /\
     w ∈ words /\
     walking words k
       (Locals (tail window ++ [w]) (generated st ++ [head])
          (if Py.endswith w NL then current st + 1 else current st) (Some w))).
Proof.
  intros (Hwin & Hstart & Hgen & Hnext).
  destruct (create_database_walkable words k db Hk Hlen Hbuilt) as (_ & _ & Hkeys).
  destruct (start st) as [|head rest] eqn:Hst; [simpl in Hwin; lia|].
  unfold loop_body, mbind, rnd_bind, lift. rewrite Hst.
  change (Py.getitem (head :: rest) 0) with (Ret (A := string) head).
  destruct (lookup_loop_safe fuel (head :: rest) c)
    as [[c' Hrun]|(window & w & successors & c' & Hrun & Hkey & Hw)]; rewrite Hrun.
  - left. by eexists.
  - right. exists head, w, window, c'. rewrite slice_from_tail.
    destruct (Hkeys _ _ Hkey) as (Hl & Hkw & Hsw).
    assert (w ∈ words) as Hww by (eapply Forall_forall in Hsw; eauto).
    split; [done|]. split; [done|]. unfold walking. simpl. split; [|split; [|split]].
    + destruct window; simpl in *; [lia|]. rewrite length_app. simpl. lia.
    + apply Forall_app. split; [|by apply Forall_singleton].
      destruct window; [done|]. by apply Forall_cons in Hkw as [_ ?].
    + apply Forall_app. split; [done|]. apply Forall_singleton.
      by apply Forall_cons in Hstart as [? _].
    + by intros w' [= <-].
Qed.

(** The outer loop never raises; when it returns the counter has reached
    [size], and if a turn was made the last word found ends with the marker
    and the accumulator is not empty. *)
Lemma main_loop_safe (size : Z) (fuel : nat) (st : locals) (c : nat) :
  walking words k st ->
  (exists c', main_loop rand words db (Z.of_nat k) size fuel st c = (Timeout, c')) \/
  (exists st' c',
     main_loop rand words db (Z.of_nat k) size fuel st c = (Ret st', c') /\
     walking words k st' /\ size <= current st' /\
     (size <= current st -> st' = st) /\
     (current st < size ->
      generated st' <> [] /\
      exists w, next_word st' = Some w /\ Py.endswith w NL = true)).
Proof.
  revert st c. induction fuel as [|fuel IH]; intros st c Hinv.
  - destruct (Z.lt_ge_cases (current st) size) as [Hlt|Hge].
    + left. cbn [main_loop]. rewrite (proj2 (Z.ltb_lt _ _)) by lia. by eexists.
    + right. exists st, c. rewrite main_loop_done by lia.
      split; [done|]. split; [done|]. split; [lia|]. split; [done|]. intros. lia.
  - destruct (Z.lt_ge_cases (current st) size) as [Hlt|Hge].
    + rewrite main_loop_turn by lia. unfold mbind, rnd_bind.
      destruct (loop_body_safe fuel st c Hinv)
        as [[c' Hrun]|(head & w & window & c' & Hrun & Hw & Hinv')]; rewrite Hrun.
      * left. by eexists.
      * set (st1 := Locals _ _ _ _) in *.
        destruct (IH st1 c' Hinv')
          as [[c'' Hloop]|(st' & c'' & Hloop & Hinv'' & Hdone & Hsame & Hturn)];
          rewrite Hloop.
        { left. by eexists. }
        right. exists st', c''. split; [done|]. split; [done|]. split; [done|].
        split; [lia|]. intros _.
        destruct (Z.lt_ge_cases (current st1) size) as [Hlt1|Hge1].
        { by apply Hturn. }
        rewrite (Hsame Hge1). subst st1. simpl in *. split.
        { by destruct (generated st). }
        exists w. split; [done|]. destruct (Py.endswith w NL); [done|lia].
    + right. exists st, c. rewrite main_loop_done by lia.
      split; [done|]. split; [done|]. split; [lia|]. split; [done|]. intros. lia.
Qed.
End Walk.

(** X11: when the database was built from the words with a chain length of
    at least two, the window [random_word] returns is always a key of the
    database, with [chain_length - 1] words; it costs one draw. *)
Theorem X11_random_word_is_key (rand : nat -> nat) (words : list string)
    (db : gmap (list string) (list string)) (chain_length : Z) (c : nat) :
  2 <= chain_length <= Py.len words ->
  create_database words chain_length = Ret db ->
  exists window successors,
    random_word rand words chain_length c = (Ret window, S c) /\
    db !! window = Some successors /\ successors <> [] /\
    Py.len window = chain_length - 1.
Proof.
  unfold Py.len. intros Hk Hbuilt.
  rewrite <- (Z2Nat.id chain_length) in Hbuilt |- * by lia.
  destruct (random_word_key rand words db (Z.to_nat chain_length))
    with (c := c) as (window & successors & Hrun & Hkey & Hl & _); [lia|lia|done|].
  exists window, successors. split; [done|]. split; [done|]. split; [|lia].
  destruct (create_database_walkable words (Z.to_nat chain_length) db)
    as (Hbr & _); [lia|lia|done|].
  apply Hbr in Hkey. intros ->. simpl in Hkey. lia.
Qed.

Lemma X11_random_word_is_key_witness :
  exists window successors,
    random_word (fun _ => 3%nat) ex_words 3 0%nat = (Ret window, 1%nat) /\
    ex_db !! window = Some successors /\ successors <> [] /\
    Py.len window = 3 - 1.
Proof.
  apply (X11_random_word_is_key (fun _ => 3%nat) ex_words ex_db 3 0).
  - unfold Py.len. simpl. lia.
  - vm_compute. reflexivity.
Defined.

(** X12: dead ends cost one restart. When the database was built from the
    words with a chain length of at least two, the [while True] loop of
    [do_markov] returns from any window, key or not, within two lookups: with
    one draw and the window unchanged when it is a key, with two draws and a
    new window when it is not; the word it returns is a successor of the
    window it returns. *)
Theorem X12_lookup_restarts_once (rand : nat -> nat) (words : list string)
    (db : gmap (list string) (list string)) (chain_length : Z)
    (fuel : nat) (start : list string) (c : nat) :
  2 <= chain_length <= Py.len words ->
  create_database words chain_length = Ret db ->
  exists window w successors c',
    lookup_loop rand words db chain_length (S (S fuel)) start c = (Ret (window, w), c') /\
    db !! window = Some successors /\ w ∈ successors /\
    ((is_Some (db !! start) /\ window = start /\ c' = S c) \/
     (db !! start = None /\ c' = S (S c))).
Proof.
  unfold Py.len. intros Hk Hbuilt.
  rewrite <- (Z2Nat.id chain_length) in Hbuilt |- * by lia.
  apply lookup_loop_total; [lia|lia|done].
Qed.

Lemma X12_lookup_restarts_once_witness :
  exists window w successors c',
    lookup_loop (fun _ => 0%nat) ex_words ex_db 3 2 ["dog"; "ran" +:+ NL] 0%nat
    = (Ret (window, w), c') /\
    ex_db !! window = Some successors /\ w ∈ successors /\
    ((is_Some (ex_db !! ["dog"; "ran" +:+ NL]) /\ window = ["dog"; "ran" +:+ NL] /\ c' = 1%nat) \/
     (ex_db !! ["dog"; "ran" +:+ NL] = None /\ c' = 2%nat)).
Proof.
  apply (X12_lookup_restarts_once (fun _ => 0%nat) ex_words ex_db 3 0 ["dog"; "ran" +:+ NL] 0).
  - unfold Py.len. simpl. lia.
  - vm_compute. reflexivity.
Defined.

(** X13: on a database built from the words, with a chain length of at least
    two and at least one line asked for, [do_markov] raises nothing: it runs
    out of fuel or returns. What it returns is the join of at least two
    tokens, every one of them a word of the text, the last one ending with
    the marker. *)
Theorem X13_do_markov_output (rand : nat -> nat) (words : list string)
    (db : gmap (list string) (list string)) (chain_length size : Z)
    (fuel c : nat) :
  2 <= chain_length <= Py.len words ->
  create_database words chain_length = Ret db ->
  1 <= size ->
  (exists c', do_markov rand words db chain_length size fuel c = (Timeout, c')) \/
  (exists tokens w c',
     do_markov rand words db chain_length size fuel c
     = (Ret (Py.join " " (tokens ++ [w])), c') /\
     tokens <> [] /\
     Forall (fun t => t ∈ words) (tokens ++ [w]) /\
     Py.endswith w NL = true).
Proof.
  unfold Py.len. intros Hk Hbuilt Hsize.
  rewrite <- (Z2Nat.id chain_length) in Hbuilt |- * by lia.
  set (k := Z.to_nat chain_length) in *.
  destruct (random_word_key rand words db k) with (c := c)
    as (window & successors & Hrun & Hkey & Hl & Hw); [lia|lia|done|].
  unfold do_markov, mbind, rnd_bind. rewrite Hrun.
  destruct (main_loop_safe rand words db k) with
    (size := size) (fuel := fuel) (st := Locals window [] 0 None) (c := S c)
    as [[c' Hloop]|(st' & c' & Hloop & Hinv & _ & _ & Hturn)]; [lia|lia|done| | |].
  { unfold walking. simpl. by repeat split. }
  - left. rewrite Hloop. by eexists.
  - right. rewrite Hloop.
    destruct Hturn as (Hgen & w & Hnext & Hmark); [simpl; lia|].
    destruct Hinv as (_ & _ & Hgenw & Hnextw).
    exists (generated st'), w, c'. unfold finish. rewrite Hnext.
    split; [done|]. split; [done|]. split; [|done].
    apply Forall_app. split; [done|]. apply Forall_singleton. by apply Hnextw.
Qed.

Lemma X13_do_markov_output_witness :
  (exists c', do_markov (fun _ => 0%nat) ex_words ex_db 3 1 2 0%nat = (Timeout, c')) \/
  (exists tokens w c',
     do_markov (fun _ => 0%nat) ex_words ex_db 3 1 2 0%nat
     = (Ret (Py.join " " (tokens ++ [w])), c') /\
     tokens <> [] /\
     Forall (fun t => t ∈ ex_words) (tokens ++ [w]) /\
     Py.endswith w NL = true).
Proof.
  apply (X13_do_markov_output (fun _ => 0%nat) ex_words ex_db 3 1 2 0).
  - unfold Py.len. simpl. lia.
  - vm_compute. reflexivity.
  - lia.
Defined.

(** On a text without a marker the counter never moves, and the outer loop
    uses up any fuel. *)
Lemma main_loop_without_marker (rand : nat -> nat) (words : list string)
    (db : gmap (list string) (list string)) (k : nat) (size : Z)
    (fuel : nat) (st : locals) (c : nat) :
  (2 <= k)%nat -> (k <= length words)%nat ->
  create_database words (Z.of_nat k) = Ret db ->
  Forall (fun w => Py.endswith w NL = false) words ->
  walking words k st -> current st < size ->
  exists c', main_loop rand words db (Z.of_nat k) size fuel st c = (Timeout, c').
Proof.
  intros Hk Hlen Hbuilt Hplain. revert st c.
  induction fuel as [|fuel IH]; intros st c Hinv Hlt.
  - cbn [main_loop]. rewrite (proj2 (Z.ltb_lt _ _)) by lia. by eexists.
  - rewrite main_loop_turn by lia. unfold mbind, rnd_bind.
    destruct (loop_body_safe rand words db k Hk Hlen Hbuilt fuel st c Hinv)
      as [[c' Hrun]|(head & w & window & c' & Hrun & Hw & Hinv')]; rewrite Hrun.
    + by eexists.
    + eapply Forall_forall in Hplain; [|exact Hw]. simpl in Hplain.
      rewrite Hplain in *. by apply IH.
Qed.

(** X14: on a text in which no word ends with the marker, [do_markov] asked
    for at least one line never returns: whatever the random source and the
    fuel, the run is still in its loop when the fuel is used up. *)
Theorem X14_do_markov_needs_marker (rand : nat -> nat) (words : list string)
    (db : gmap (list string) (list string)) (chain_length size : Z)
    (fuel c : nat) :
  2 <= chain_length <= Py.len words ->
  create_database words chain_length = Ret db ->
  Forall (fun w => Py.endswith w NL = false) words ->
  1 <= size ->
  exists c', do_markov rand words db chain_length size fuel c = (Timeout, c').
Proof.
  unfold Py.len. intros Hk Hbuilt Hplain Hsize.
  rewrite <- (Z2Nat.id chain_length) in Hbuilt |- * by lia.
  set (k := Z.to_nat chain_length) in *.
  destruct (random_word_key rand words db k) with (c := c)
    as (window & successors & Hrun & Hkey & Hl & Hw); [lia|lia|done|].
  unfold do_markov, mbind, rnd_bind. rewrite Hrun.
  destruct (main_loop_without_marker rand words db k size fuel
              (Locals window [] 0 None) (S c)) as [c' Hloop];
    [lia|lia|done|done| |simpl; lia|].
  { unfold walking. simpl. by repeat split. }
  rewrite Hloop. by eexists.
Qed.

Lemma X14_do_markov_needs_marker_witness :
  exists c', do_markov (fun _ => 0%nat) ab_words ab_db 2 1 5 0%nat = (Timeout, c').
Proof.
  apply (X14_do_markov_needs_marker (fun _ => 0%nat) ab_words ab_db 2 1 5 0).
  - unfold Py.len. simpl. lia.
  - vm_compute. reflexivity.
  - repeat constructor.
  - lia.
Defined.

(** ** The script *)

Lemma db_stats_returns (db : gmap (list string) (list string)) :
  db <> ∅ -> exists s, db_stats db = Ret s.
Proof.
  intros Hne. unfold db_stats. destruct (foldl _ _ _) as [[lo hi] total].
  apply map_size_non_empty_iff in Hne.
  rewrite (proj2 (Z.eqb_neq _ 0)) by lia. by eexists.
Qed.

Lemma do_markov_safe (rand : nat -> nat) (words : list string)
    (db : gmap (list string) (list string)) (k : nat) (size : Z) (fuel c : nat) :
  (2 <= k)%nat -> (k <= length words)%nat ->
  create_database words (Z.of_nat k) = Ret db -> 1 <= size ->
  (exists c', do_markov rand words db (Z.of_nat k) size fuel c = (Timeout, c')) \/
  (exists text c', do_markov rand words db (Z.of_nat k) size fuel c = (Ret text, c')).
Proof.
  intros Hk Hlen Hbuilt Hsize.
  destruct (random_word_key rand words db k Hk Hlen Hbuilt c)
    as (window & successors & Hrun & Hkey & Hl & Hw).
  unfold do_markov, mbind, rnd_bind. rewrite Hrun.
  destruct (main_loop_safe rand words db k Hk Hlen Hbuilt size fuel
              (Locals window [] 0 None) (S c))
    as [[c' Hloop]|(st' & c' & Hloop & _ & _ & _ & Hturn)].
  { unfold walking. simpl. by repeat split. }
  - left. rewrite Hloop. by eexists.
  - right. rewrite Hloop.
    destruct Hturn as (_ & w & Hnext & _); [simpl; lia|].
    unfold finish. rewrite Hnext. by eexists _, _.
Qed.

Lemma create_database_nonempty (words : list string) (k : nat)
    (db : gmap (list string) (list string)) :
  (2 <= k)%nat -> (k <= length words)%nat ->
  create_database words (Z.of_nat k) = Ret db -> db <> ∅.
Proof.
  intros Hk Hlen Hbuilt.
  destruct (create_database_walkable words k db Hk Hlen Hbuilt) as (_ & Hseed & _).
  destruct (Hseed 0%nat) as [l Hl]; [lia|]. intros ->. by rewrite lookup_empty in Hl.
Qed.

(** X15: what the script can do. When [shakespeare_sonnet.txt] cannot be
    opened it stops with [IOError] in [read_file]. When the file can be
    opened, reading it raises nothing; with fewer than three tokens the
    script stops with [ValueError] in [do_markov], before any draw; with
    three tokens or more it raises nothing: it is still generating when the
    fuel is used up, or it prints a text and then the statistics, which
    [db_stats] computes without dividing by zero. *)
Theorem X15_main_outcomes (fs : gmap string (list string)) (rand : nat -> nat)
    (fuel c : nat) :
  (fs !! "shakespeare_sonnet.txt" = None /\
   main fs rand fuel c = (Raise IOError, c)) \/
  (exists lines words,
     fs !! "shakespeare_sonnet.txt" = Some lines /\
     read_file_at fs "shakespeare_sonnet.txt" = Ret words /\
     read_file lines = Ret words /\
     ((Py.len words < 3 /\ main fs rand fuel c = (Raise ValueError, c)) \/
      (3 <= Py.len words /\
       ((exists c', main fs rand fuel c = (Timeout, c')) \/
        (exists text s c', main fs rand fuel c = (Ret (text, Ret s), c')))))).
Proof.
  unfold main, mbind at 1 3 5 7, rnd_bind, lift, read_file_at.
  destruct (fs !! "shakespeare_sonnet.txt") as [lines|]; [right|by left].
  exists lines, (tokenizer_spec lines). split; [done|].
  rewrite read_file_spec. split; [done|]. split; [done|].
  set (words := tokenizer_spec lines).
  destruct (Z.lt_ge_cases (Py.len words) 3) as [Hshort|Hlong].
  - left. split; [done|]. unfold mbind, rnd_bind.
    rewrite create_database_short by done.
    unfold do_markov, mbind, rnd_bind. by rewrite random_word_short.
  - right. split; [done|]. unfold Py.len in Hlong.
    destruct (create_database_lookup words 3) as (db & Hbuilt & _); [lia|lia|].
    assert (db <> ∅) as Hne by (apply (create_database_nonempty words 3); [lia|lia|done]).
    destruct (do_markov_safe rand words db 3 13 fuel c)
      as [[c' Hrun]|(text & c' & Hrun)]; [lia|lia|done|lia| |];
      change (Z.of_nat 3) with 3 in *;
      unfold mbind, rnd_bind; rewrite Hbuilt, Hrun.
    + left. by eexists.
    + right. destruct (db_stats_returns db Hne) as [s Hs]. rewrite Hs.
      by exists text, s, c'.
Qed.

(** ** [do_markov] with chains of one *)

Lemma slice_empty {A : Type} (l : list A) (i : Z) : Py.slice l i i = [].
Proof. unfold Py.slice. by rewrite Z.sub_diag. Qed.

(** X16: with a chain length of one the window is empty, and [do_markov]
    asked for at least one line raises [IndexError] at [start[0]] in its first
    turn, after the one draw of the seed, whatever the database. *)
Theorem X16_do_markov_order_one (rand : nat -> nat) (words : list string)
    (db : gmap (list string) (list string)) (size : Z) (fuel c : nat) :
  1 <= Py.len words -> 1 <= size ->
  do_markov rand words db 1 size (S fuel) c = (Raise IndexError, S c).
Proof.
  intros Hlen Hsize.
  destruct (random_word_inside rand words 1 c Hlen) as (seed & _ & Hrun).
  replace (seed + 1 - 1) with seed in Hrun by lia. rewrite slice_empty in Hrun.
  unfold do_markov, mbind, rnd_bind. rewrite Hrun.
  by rewrite main_loop_turn by (simpl; lia).
Qed.

Lemma X16_do_markov_order_one_witness :
  do_markov (fun _ => 0%nat) ["the"; "cat"] {[ [] := ["the"; "cat"] ]} 1 13 (S 5) 0%nat
  = (Raise IndexError, 1%nat).
Proof.
  apply (X16_do_markov_order_one (fun _ => 0%nat) ["the"; "cat"]
           {[ [] := ["the"; "cat"] ]} 13 5 0).
  - unfold Py.len. simpl. lia.
  - lia.
Defined.
